(** * bnmpy: the resumable bulk-harvest engine of [bnmpy/scraper.py]

    A shallow embedding of [BNMPScraper] (page fetcher, pagination driver,
    artifact downloader and crawl controller) together with the part of
    [BNMPAPIClient] it calls, and the properties of the harvest engine
    proved or refuted on it.

    Modelling conventions.
    - Python values that come out of [response.json()] are [json] values;
      Python's [None] is JSON's [null].
    - The data directory is a pair of finite maps from file names to file
      contents ([data_dir/json] and [data_dir/pdfs]).
    - Every network call and every read of a page file is appended to a
      chronological [trace]; the remote server is an arbitrary function
      from the trace so far and the call to an outcome, so it may be
      stateful, rate limiting or failing.
    - A Python function that can raise is a computation in a state and
      exception monad [M]; the effects made before a raise are kept.
    - JSON numbers are integers.  Writes to the data directory succeed
      and [time.sleep] returns (the configured delay is not negative);
      [print] and [time.sleep] leave no mark on the modelled state. *)

From Stdlib Require Import ZArith Lia.
From stdpp Require Import base option list strings gmap pretty sorting.

Open Scope Z_scope.
Set Warnings "-register-all".

(** ** JSON values and the Python operations applied to them *)

Inductive json : Type :=
  | JNull
  | JBool (b : bool)
  | JNum (n : Z)
  | JStr (s : string)
  | JArr (xs : list json)
  | JObj (kvs : list (string * json)).

Inductive exn : Type :=
  | StatusError (code : Z)          (* Exception(f"Status {code}") *)
  | HTTPError (code : Z)            (* raised by response.raise_for_status() *)
  | JSONDecodeError
  | RequestException (msg : string) (* transport failure inside requests *)
  | FileNotFoundError
  | TypeError
  | AttributeError
  | ZeroDivisionError.

Inductive result (A : Type) : Type :=
  | Ok (a : A)
  | Raise (e : exn).
Arguments Ok {A} a.
Arguments Raise {A} e.

Module Py.

(** [bool(x)] *)
Definition truthy (x : json) : bool :=
  match x with
  | JNull => false
  | JBool b => b
  | JNum n => negb (n =? 0)
  | JStr s => negb (String.eqb s "")
  | JArr xs => match xs with [] => false | _ => true end
  | JObj kvs => match kvs with [] => false | _ => true end
  end.

Fixpoint assoc (k : string) (kvs : list (string * json)) : option json :=
  match kvs with
  | [] => None
  | (k', v) :: rest => if String.eqb k k' then Some v else assoc k rest
  end.

(** [x.get(k, dflt)]: only a dict has the method. *)
Definition get (x : json) (k : string) (dflt : json) : result json :=
  match x with
  | JObj kvs => Ok (default dflt (assoc k kvs))
  | _ => Raise AttributeError
  end.

Fixpoint chars (s : string) : list json :=
  match s with
  | EmptyString => []
  | String c rest => JStr (String c EmptyString) :: chars rest
  end.

(** The items a [for] loop or [list.extend] takes out of [x]. *)
Definition iter (x : json) : result (list json) :=
  match x with
  | JArr xs => Ok xs
  | JObj kvs => Ok (JStr <$> kvs.*1)
  | JStr s => Ok (chars s)
  | _ => Raise TypeError
  end.

(** [len(x)] *)
Definition len (x : json) : result Z :=
  match x with
  | JArr xs => Ok (Z.of_nat (length xs))
  | JObj kvs => Ok (Z.of_nat (length kvs))
  | JStr s => Ok (Z.of_nat (String.length s))
  | _ => Raise TypeError
  end.

(** An [int] operand of a comparison or of [range]; [bool] is a
    subclass of [int]. *)
Definition as_int (x : json) : result Z :=
  match x with
  | JNum n => Ok n
  | JBool b => Ok (Z.b2z b)
  | _ => Raise TypeError
  end.

(** [x == n] for an [int | None] right-hand side. *)
Definition eq_opt_int (x : json) (n : option Z) : bool :=
  match x, n with
  | JNull, None => true
  | JNum m, Some n => m =? n
  | JBool b, Some n => Z.b2z b =? n
  | _, _ => false
  end.

(** [a // b] *)
Definition floordiv (a b : Z) : result Z :=
  if b =? 0 then Raise ZeroDivisionError else Ok (a `div` b).

(** [str(x)] as an f-string interpolates it.  Scalars are exact; inside a
    list or dict the items are joined the way [repr] does, strings in
    single quotes without escapes. *)
Fixpoint str (x : json) : string :=
  let repr (y : json) : string :=
    match y with JStr s => "'" +:+ s +:+ "'" | _ => str y end in
  let fix items (xs : list json) : string :=
    match xs with
    | [] => ""
    | [y] => repr y
    | y :: ys => repr y +:+ ", " +:+ items ys
    end in
  let fix fields (kvs : list (string * json)) : string :=
    match kvs with
    | [] => ""
    | [(k, v)] => "'" +:+ k +:+ "': " +:+ repr v
    | (k, v) :: rest => "'" +:+ k +:+ "': " +:+ repr v +:+ ", " +:+ fields rest
    end in
  match x with
  | JNull => "None"
  | JBool true => "True"
  | JBool false => "False"
  | JNum n => pretty n
  | JStr s => s
  | JArr xs => "[" +:+ items xs +:+ "]"
  | JObj kvs => "{" +:+ fields kvs +:+ "}"
  end.

End Py.

(** ** The world: the data directory and the trace of effects *)

(** The four calls the scraper makes through [BNMPAPIClient].  An absent
    [id_municipio] is [JNull]. *)
Inductive call : Type :=
  | PesquisaPecasFilter (id_estado id_municipio : json) (page size : Z)
  | GetEstados
  | GetMunicipiosPorUf (uf_id : json)
  | DownloadPdf (certidao_id id_tipo_peca : json).

Inductive event : Type :=
  | Net (c : call)
  | ReadJson (filename : string).

(** What the scraper looks at in a [requests.Response]. *)
Record response : Type := {
    status_code : Z;
    json_body : option json;       (* [response.json()], when the body parses *)
    content_type : option string;  (* [response.headers["content-type"]] *)
    content : string;              (* [response.content] *)
  }.

(** A file under [data_dir/json] either parses as JSON or does not. *)
Inductive json_file : Type :=
  | JsonText (data : json)
  | NotJson.

Record world : Type := {
    json_dir : gmap string json_file;
    pdf_dir : gmap string string;
    trace : list event;
  }.

Definition is_net (e : event) : bool :=
  match e with Net _ => true | ReadJson _ => false end.

(** The network calls of a trace, in order. *)
Definition net_calls (t : list event) : list event := filter is_net t.

Definition log (e : event) (w : world) : world :=
  {| json_dir := json_dir w; pdf_dir := pdf_dir w; trace := trace w ++ [e] |}.

(** ** State and exception monad *)

Definition M (A : Type) : Type := world → result A * world.

Definition ret {A} (a : A) : M A := λ w, (Ok a, w).

Definition raise {A} (e : exn) : M A := λ w, (Raise e, w).

Definition lift {A} (r : result A) : M A := λ w, (r, w).

Definition bind {A B} (m : M A) (k : A → M B) : M B :=
  λ w, match m w with
       | (Ok a, w') => k a w'
       | (Raise e, w') => (Raise e, w')
       end.

(** [try: m except Exception as e: h e] *)
Definition try_except {A} (m : M A) (h : exn → M A) : M A :=
  λ w, match m w with
       | (Ok a, w') => (Ok a, w')
       | (Raise e, w') => h e w'
       end.

Declare Scope py_scope.
Delimit Scope py_scope with py.
Notation "x <- m ;; k" := (bind m (λ x, k))
  (at level 100, m at next level, right associativity) : py_scope.
Notation "m ;;; k" := (bind m (λ _, k))
  (at level 100, right associativity) : py_scope.
Open Scope py_scope.

(** ** Responses *)

Definition response_json (r : response) : result json :=
  match json_body r with
  | Some j => Ok j
  | None => Raise JSONDecodeError
  end.

Definition raise_for_status (r : response) : result unit :=
  if (400 <=? status_code r) && (status_code r <? 600)
  then Raise (HTTPError (status_code r))
  else Ok tt.

Fixpoint lower (s : string) : string :=
  match s with
  | EmptyString => EmptyString
  | String c rest =>
      let n := Ascii.N_of_ascii c in
      String (if (65 <=? n)%N && (n <=? 90)%N
              then Ascii.ascii_of_N (n + 32) else c) (lower rest)
  end.

(** [needle in haystack] *)
Definition contains (needle haystack : string) : bool :=
  bool_decide (is_Some (String.index 0 needle haystack)).

(** ** The scraper *)

Record BNMPScraper : Type := {
    page_size : Z;
    max_results_per_combination : Z;
    max_workers : Z;
  }.

Section Scraper.

(** The remote portal: the outcome of a call given everything that
    happened before it.  [Raise] is an exception out of [requests]. *)
Variable remote : list event → call → result response.

(** The order in which a [ThreadPoolExecutor] of more than one worker
    runs and completes the tasks submitted to it.  Each task is run to
    its end before the next one starts. *)
Variable schedule : ∀ A : Type, list A → list A.

Variable self : BNMPScraper.

(** *** [BNMPAPIClient] *)

Definition request (c : call) : M response :=
  λ w, (remote (trace w) c, log (Net c) w).

Definition pesquisa_pecas_filter (id_estado id_municipio : json)
    (page size : Z) : M response :=
  request (PesquisaPecasFilter id_estado id_municipio page size).

Definition client_get_estados : M response := request GetEstados.

Definition get_municipios_por_uf (uf_id : json) : M response :=
  request (GetMunicipiosPorUf uf_id).

Definition download_pdf (certidao_id id_tipo_peca : json) : M response :=
  request (DownloadPdf certidao_id id_tipo_peca).

(** *** Files *)

Definition save_json (data : json) (filename : string) : M unit :=
  λ w, (Ok tt,
        {| json_dir := <[filename := JsonText data]> (json_dir w);
           pdf_dir := pdf_dir w; trace := trace w |}).

Definition save_pdf (bytes : string) (filename : string) : M unit :=
  λ w, (Ok tt,
        {| json_dir := json_dir w;
           pdf_dir := <[filename := bytes]> (pdf_dir w);
           trace := trace w |}).

Definition json_exists (filename : string) : M bool :=
  λ w, (Ok (bool_decide (is_Some (json_dir w !! filename))), w).

Definition pdf_exists (filename : string) : M bool :=
  λ w, (Ok (bool_decide (is_Some (pdf_dir w !! filename))), w).

(** [with open(filepath) as f: json.load(f)] *)
Definition load_json (filename : string) : M json :=
  λ w, match json_dir w !! filename with
       | None => (Raise FileNotFoundError, w)
       | Some f =>
           (match f with JsonText d => Ok d | NotJson => Raise JSONDecodeError end,
            log (ReadJson filename) w)
       end.

(** *** Page fetcher *)

Definition page_filename (filename_prefix : string) (page size : Z) : string :=
  filename_prefix +:+ "_page_" +:+ pretty page +:+ "_size_" +:+ pretty size
    +:+ ".json".

(** The [# Make API request] block of [_download_single_page]. *)
Definition request_page (uf_id municipio_id : json)
    (page effective_page_size : Z) (filename_prefix : string)
    : M (Z * json * option exn) :=
  let filename := page_filename filename_prefix page effective_page_size in
  try_except
    (response <- pesquisa_pecas_filter uf_id municipio_id page
                   effective_page_size ;;
     if status_code response =? 200 then
       page_data <- lift (response_json response) ;;
       save_json page_data filename ;;;
       ret (page, page_data, None)
     else if (status_code response =? 400) && (10 <? effective_page_size) then
       response <- pesquisa_pecas_filter uf_id municipio_id page 10 ;;
       if status_code response =? 200 then
         page_data <- lift (response_json response) ;;
         save_json page_data (page_filename filename_prefix page 10) ;;;
         ret (page, page_data, None)
       else
         ret (page, JNull, Some (StatusError (status_code response)))
     else
       ret (page, JNull, Some (StatusError (status_code response))))
    (λ e, ret (page, JNull, Some e)).

(** The [# Check if file already exists] block. *)
Definition read_page (page : Z) (filename filename_original : string)
    : M (Z * json * option exn) :=
  here <- json_exists filename ;;
  let filepath := if here then filename else filename_original in
  try_except
    (page_data <- load_json filepath ;;
     ret (page, page_data, None))
    (λ e, ret (page, JNull, Some e)).

Definition _download_single_page (uf_id municipio_id : json)
    (page effective_page_size : Z) (filename_prefix : string)
    : M (Z * json * option exn) :=
  let filename := page_filename filename_prefix page effective_page_size in
  let filename_original := page_filename filename_prefix page (page_size self) in
  here <- json_exists filename ;;
  there <- (if here then ret true else json_exists filename_original) ;;
  if there then read_page page filename filename_original
  else request_page uf_id municipio_id page effective_page_size filename_prefix.

(** *** Pagination driver *)

(** The display names [uf_name] and [municipio_name] only feed [print]
    and are left out. *)
Definition filename_prefix_of (uf_id municipio_id : json) : string :=
  match municipio_id with
  | JNull => "uf_" +:+ Py.str uf_id
  | _ => "uf_" +:+ Py.str uf_id +:+ "_municipio_" +:+ Py.str municipio_id
  end.

(** [content = page_data.get("content", [])] followed by [len(content)]
    and [all_results.extend(content)]. *)
Definition page_content (page_data : json) : result (list json) :=
  match Py.get page_data "content" (JArr []) with
  | Raise e => Raise e
  | Ok content =>
      match Py.len content with
      | Raise e => Raise e
      | Ok _ => Py.iter content
      end
  end.

(** The sequential [for page in pages_to_download] loop. *)
Fixpoint download_pages_sequential (uf_id municipio_id : json)
    (effective_page_size : Z) (filename_prefix : string)
    (pages : list Z) (all_results : list json) : M (list json) :=
  match pages with
  | [] => ret all_results
  | page :: rest =>
      if max_results_per_combination self <=? Z.of_nat (length all_results)
      then ret all_results
      else
        r <- _download_single_page uf_id municipio_id page
               effective_page_size filename_prefix ;;
        let '(_, page_data, error) := r in
        match error with
        | Some _ => ret all_results
        | None =>
            if Py.truthy page_data then
              items <- lift (page_content page_data) ;;
              download_pages_sequential uf_id municipio_id
                effective_page_size filename_prefix rest (all_results ++ items)
            else
              download_pages_sequential uf_id municipio_id
                effective_page_size filename_prefix rest all_results
        end
  end.

Fixpoint mapM {A B} (f : A → M B) (xs : list A) : M (list B) :=
  match xs with
  | [] => ret []
  | x :: rest => y <- f x ;; ys <- mapM f rest ;; ret (y :: ys)
  end.

(** The [for future in as_completed(futures)] loop of the page pool. *)
Fixpoint collect_pages (done : list (Z * json * option exn))
    (page_results : gmap Z json) : result (gmap Z json) :=
  match done with
  | [] => Ok page_results
  | (page_num, page_data, error) :: rest =>
      match error with
      | Some _ => collect_pages rest page_results
      | None =>
          if Py.truthy page_data then
            match page_content page_data with
            | Raise e => Raise e
            | Ok _ => collect_pages rest (<[page_num := page_data]> page_results)
            end
          else collect_pages rest page_results
      end
  end.

Definition key_le (a b : Z * json) : Prop := a.1 ≤ b.1.

#[local] Instance key_le_dec : RelDecision key_le :=
  λ a b, decide (a.1 ≤ b.1).

(** [for page_num in sorted(page_results.keys())] *)
Definition sorted_items (page_results : gmap Z json) : list (Z * json) :=
  merge_sort key_le (map_to_list page_results).

Fixpoint extend_all (pages : list (Z * json)) (all_results : list json)
    : result (list json) :=
  match pages with
  | [] => Ok all_results
  | (_, page_data) :: rest =>
      match Py.get page_data "content" (JArr []) with
      | Raise e => Raise e
      | Ok content =>
          match Py.iter content with
          | Raise e => Raise e
          | Ok items => extend_all rest (all_results ++ items)
          end
      end
  end.

Definition download_pages_parallel (uf_id municipio_id : json)
    (effective_page_size : Z) (filename_prefix : string)
    (pages : list Z) (all_results : list json) : M (list json) :=
  done <- mapM (λ page, _download_single_page uf_id municipio_id page
                          effective_page_size filename_prefix)
            (schedule Z pages) ;;
  page_results <- lift (collect_pages done ∅) ;;
  lift (extend_all (sorted_items page_results) all_results).

(** [list(range(1, total_pages))] *)
Definition pages_to_download (total_pages : Z) : list Z :=
  seqZ 1 (total_pages - 1).

(** Everything [download_filter_results] does once page 0 is in hand. *)
Definition download_remaining (uf_id municipio_id : json)
    (filename_prefix : string) (first_page_data : json) : M (list json) :=
  total_pages <- lift (Py.get first_page_data "totalPages" (JNum 1)) ;;
  total_elements <- lift (Py.get first_page_data "totalElements" (JNum 0)) ;;
  content <- lift (Py.get first_page_data "content" (JArr [])) ;;
  effective_page_size <- lift (Py.len content) ;;
  reported <- lift (Py.as_int total_elements) ;;
  total_pages <-
    (if max_results_per_combination self <=? reported then
       capped <- lift (Py.floordiv
                   (max_results_per_combination self + effective_page_size - 1)
                   effective_page_size) ;;
       ret (JNum capped)
     else ret total_pages) ;;
  all_results <- lift (Py.iter content) ;;
  total_pages <- lift (Py.as_int total_pages) ;;
  if 1 <? total_pages then
    let pages := pages_to_download total_pages in
    if (1 <? max_workers self) && (1 <? Z.of_nat (length pages)) then
      download_pages_parallel uf_id municipio_id effective_page_size
        filename_prefix pages all_results
    else
      download_pages_sequential uf_id municipio_id effective_page_size
        filename_prefix pages all_results
  else ret all_results.

Definition download_filter_results (uf_id municipio_id : json)
    : M (list json) :=
  let filename_prefix := filename_prefix_of uf_id municipio_id in
  first_page_result <- _download_single_page uf_id municipio_id 0
                         (page_size self) filename_prefix ;;
  let '(_, first_page_data, error) := first_page_result in
  if bool_decide (is_Some error) || negb (Py.truthy first_page_data)
  then ret []
  else download_remaining uf_id municipio_id filename_prefix first_page_data.

(** *** Artifact downloader *)

Definition pdf_filename (certidao_id id_tipo_peca : json) : string :=
  "certidao_" +:+ Py.str certidao_id +:+ "_tipo_" +:+ Py.str id_tipo_peca
    +:+ ".pdf".

Definition looks_like_pdf (r : response) : bool :=
  contains "pdf" (lower (default "" (content_type r)))
  || String.eqb (String.substring 0 4 (content r)) "%PDF".

Definition download_pdf_for_person (certidao_id id_tipo_peca : json) : M bool :=
  let filename := pdf_filename certidao_id id_tipo_peca in
  already <- pdf_exists filename ;;
  if already then ret true
  else
    try_except
      (response <- download_pdf certidao_id id_tipo_peca ;;
       if status_code response =? 200 then
         if looks_like_pdf response then
           save_pdf (content response) filename ;;;
           ret true
         else ret false
       else ret false)
      (λ _, ret false).

(** The counts [_download_pdfs_for_results] prints when it is done; it
    returns nothing else. *)
Record tally : Type := {
    downloaded : Z;
    skipped : Z;
    errors : Z;
  }.

Definition no_tally : tally := {| downloaded := 0; skipped := 0; errors := 0 |}.

Definition count_downloaded (t : tally) : tally :=
  {| downloaded := downloaded t + 1; skipped := skipped t; errors := errors t |}.

Definition count_skipped (t : tally) : tally :=
  {| downloaded := downloaded t; skipped := skipped t + 1; errors := errors t |}.

Definition count_error (t : tally) : tally :=
  {| downloaded := downloaded t; skipped := skipped t; errors := errors t + 1 |}.

Definition is_none (x : json) : bool :=
  match x with JNull => true | _ => false end.

(** The task of the worker pool: [(downloaded, skipped, error)]. *)
Definition download_pdf_task (result : json) : M (bool * bool * bool) :=
  certidao_id <- lift (Py.get result "id" JNull) ;;
  id_tipo_peca <- lift (Py.get result "idTipoPeca" JNull) ;;
  if negb (Py.truthy certidao_id) || is_none id_tipo_peca
  then ret (false, false, true)
  else
    already <- pdf_exists (pdf_filename certidao_id id_tipo_peca) ;;
    if already then ret (false, true, false)
    else
      ok <- download_pdf_for_person certidao_id id_tipo_peca ;;
      if ok then ret (true, false, false) else ret (false, false, true).

(** A submitted task keeps its exception until [future.result()]. *)
Definition submit {A} (task : M A) : M (result A) :=
  λ w, let '(r, w') := task w in (Ok r, w').

(** The [for future in as_completed(futures)] loop of the PDF pool. *)
Fixpoint tally_futures (done : list (result (bool * bool * bool))) (t : tally)
    : result tally :=
  match done with
  | [] => Ok t
  | Raise e :: _ => Raise e
  | Ok (d, s, e) :: rest =>
      tally_futures rest
        (if d then count_downloaded t
         else if s then count_skipped t
         else if e then count_error t
         else t)
  end.

Definition download_pdfs_parallel (results : list json) : M tally :=
  done <- mapM (λ result, submit (download_pdf_task result))
            (schedule json results) ;;
  lift (tally_futures done no_tally).

(** The sequential [for i, result in enumerate(results)] loop. *)
Fixpoint download_pdfs_sequential (results : list json) (t : tally) : M tally :=
  match results with
  | [] => ret t
  | result :: rest =>
      certidao_id <- lift (Py.get result "id" JNull) ;;
      id_tipo_peca <- lift (Py.get result "idTipoPeca" JNull) ;;
      if negb (Py.truthy certidao_id) then
        download_pdfs_sequential rest (count_error t)
      else if is_none id_tipo_peca then
        download_pdfs_sequential rest (count_error t)
      else
        ok <- download_pdf_for_person certidao_id id_tipo_peca ;;
        if ok then download_pdfs_sequential rest (count_downloaded t)
        else
          there <- pdf_exists (pdf_filename certidao_id id_tipo_peca) ;;
          if there then download_pdfs_sequential rest (count_skipped t)
          else download_pdfs_sequential rest (count_error t)
  end.

(** [uf_id] is passed along for file naming only and never used. *)
Definition _download_pdfs_for_results (results : list json) : M tally :=
  match results with
  | [] => ret no_tally
  | _ =>
      if 1 <? max_workers self then download_pdfs_parallel results
      else download_pdfs_sequential results no_tally
  end.

(** *** Crawl controller *)

Definition get_estados : M json :=
  response <- client_get_estados ;;
  lift (raise_for_status response) ;;;
  estados <- lift (response_json response) ;;
  lift (Py.len estados) ;;;
  ret estados.

Definition get_municipios (uf_id : json) : M json :=
  response <- get_municipios_por_uf uf_id ;;
  lift (raise_for_status response) ;;;
  lift (response_json response).

(** The [for municipio in municipios] loop. *)
Fixpoint scrape_municipios (start_municipio_id : option Z) (uf_id : json)
    (municipios : list json) (start_municipio_processing : bool) : M unit :=
  match municipios with
  | [] => ret tt
  | municipio :: rest =>
      municipio_id <- lift (Py.get municipio "id" JNull) ;;
      if negb start_municipio_processing
         && negb (Py.eq_opt_int municipio_id start_municipio_id)
      then scrape_municipios start_municipio_id uf_id rest false
      else
        results <- download_filter_results uf_id municipio_id ;;
        _download_pdfs_for_results results ;;;
        scrape_municipios start_municipio_id uf_id rest true
  end.

(** [estado.get("nome", estado.get("sigla", f"UF_{uf_id}"))] *)
Definition uf_name_of (estado uf_id : json) : result json :=
  match Py.get estado "sigla" (JStr ("UF_" +:+ Py.str uf_id)) with
  | Raise e => Raise e
  | Ok sigla => Py.get estado "nome" sigla
  end.

(** The [try] around the state-level [download_filter_results]. *)
Definition state_level_results (uf_id : json) : M (list json) :=
  try_except (download_filter_results uf_id JNull) (λ _, ret []).

(** The body of the [for estado in estados] loop once the state is to be
    processed. *)
Definition scrape_estado (start_uf_id start_municipio_id : option Z)
    (skip_small_ufs : bool) (uf_id uf_name : json) : M unit :=
  test_results <- state_level_results uf_id ;;
  let total_results_uf := Z.of_nat (length test_results) in
  if skip_small_ufs && (total_results_uf <? max_results_per_combination self)
  then
    _download_pdfs_for_results test_results ;;;
    ret tt
  else
    municipios <- get_municipios uf_id ;;
    total <- lift (Py.len municipios) ;;
    save_json
      (JObj [("uf_id", uf_id); ("uf_name", uf_name);
             ("municipios", municipios); ("total", JNum total)])
      ("metadata/municipios_uf_" +:+ Py.str uf_id +:+ ".json") ;;;
    let start_municipio_processing :=
      bool_decide (start_municipio_id = None)
      || negb (Py.eq_opt_int uf_id start_uf_id) in
    items <- lift (Py.iter municipios) ;;
    scrape_municipios start_municipio_id uf_id items start_municipio_processing.

(** The [for estado in estados] loop. *)
Fixpoint scrape_estados (start_uf_id start_municipio_id : option Z)
    (skip_small_ufs : bool) (estados : list json) (start_processing : bool)
    : M unit :=
  match estados with
  | [] => ret tt
  | estado :: rest =>
      uf_id <- lift (Py.get estado "id" JNull) ;;
      uf_name <- lift (uf_name_of estado uf_id) ;;
      if negb start_processing && negb (Py.eq_opt_int uf_id start_uf_id)
      then scrape_estados start_uf_id start_municipio_id skip_small_ufs rest false
      else
        scrape_estado start_uf_id start_municipio_id skip_small_ufs
          uf_id uf_name ;;;
        scrape_estados start_uf_id start_municipio_id skip_small_ufs rest true
  end.

Definition scrape_all (start_uf_id start_municipio_id : option Z)
    (skip_small_ufs : bool) : M unit :=
  estados <- get_estados ;;
  total <- lift (Py.len estados) ;;
  save_json (JObj [("estados", estados); ("total", JNum total)])
    "metadata/estados.json" ;;;
  items <- lift (Py.iter estados) ;;
  scrape_estados start_uf_id start_municipio_id skip_small_ufs items
    (bool_decide (start_uf_id = None)).

End Scraper.

(** * Vocabulary of the properties *)

(** Neither of the two file names the fetcher probes is on disk. *)
Definition cache_miss (self : BNMPScraper) (w : world)
  (filename_prefix : string) (page size : Z) : Prop :=
  json_dir w !! page_filename filename_prefix page size = None
  ∧ json_dir w !! page_filename filename_prefix page (page_size self) = None.

(** The file the fetcher reads when one of the two is on disk: the one
    keyed by the size it was called with comes first. *)
Definition cached_file (self : BNMPScraper) (w : world)
  (filename_prefix : string) (page size : Z) : option (string * json_file) :=
  match json_dir w !! page_filename filename_prefix page size with
  | Some f => Some (page_filename filename_prefix page size, f)
  | None =>
      match json_dir w !! page_filename filename_prefix page (page_size self) with
      | Some f => Some (page_filename filename_prefix page (page_size self), f)
      | None => None
      end
  end.

Definition read_outcome (page : Z) (f : json_file) : Z * json * option exn :=
  match f with
  | JsonText d => (page, d, None)
  | NotJson => (page, JNull, Some JSONDecodeError)
  end.

(** The world after [filename] was written under [data_dir/json]. *)
Definition with_json (filename : string) (data : json) (w : world) : world :=
  {| json_dir := <[filename := JsonText data]> (json_dir w);
     pdf_dir := pdf_dir w; trace := trace w |}.

(** The search request of one page. *)
Definition search (uf mun : json) (page size : Z) : event :=
  Net (PesquisaPecasFilter uf mun page size).

(** The events one invocation of the page fetcher with [size] can leave:
    a read of a cached file, one request, or a request and its downgrade
    retry. *)
Inductive fetch_events (uf mun : json) (page size : Z) : list event → Prop :=
| fetch_read filename :
    fetch_events uf mun page size [ReadJson filename]
| fetch_once :
    fetch_events uf mun page size [search uf mun page size]
| fetch_retried :
    10 < size →
    fetch_events uf mun page size
      [search uf mun page size; search uf mun page 10].

(** [m] only adds events that satisfy [P] to the trace. *)
Definition emits {A} (P : event → Prop) (m : M A) : Prop :=
  ∀ w, ∃ evs, trace (m w).2 = trace w ++ evs ∧ Forall P evs.

Definition not_list_municipios (e : event) : Prop :=
  ∀ uf_id, e ≠ Net (GetMunicipiosPorUf uf_id).

(** [ceil(a / b)] the way the driver computes it. *)
Definition ceil_div (a b : Z) : Z := (a + b - 1) `div` b.

(** ** Concrete portals and worlds to run the scraper on *)

Definition empty_world : world :=
  {| json_dir := ∅; pdf_dir := ∅; trace := [] |}.

(** [page_size=30, max_results_per_combination=10000, max_workers=1] *)
Definition default_scraper : BNMPScraper :=
  {| page_size := 30; max_results_per_combination := 10000; max_workers := 1 |}.

Definition pooled_scraper : BNMPScraper :=
  {| page_size := 30; max_results_per_combination := 10000; max_workers := 4 |}.

Definition in_order (A : Type) (tasks : list A) : list A := tasks.

Definition record (id tipo : Z) : json :=
  JObj [("id", JNum id); ("idTipoPeca", JNum tipo)].

Definition page_of (items : list json) (total_pages total_elements : Z) : json :=
  JObj [("content", JArr items); ("totalPages", JNum total_pages);
        ("totalElements", JNum total_elements)].

Definition five_records : list json :=
  [record 101 1; record 102 1; record 103 1; record 104 1; record 105 1].

Definition answer (status : Z) (body : option json) : result response :=
  Ok {| status_code := status; json_body := body; content_type := None;
        content := "" |}.

(** A portal that honours at most five items a page, whatever was asked. *)
Definition portal_five (_ : list event) (c : call) : result response :=
  match c with
  | PesquisaPecasFilter _ _ _ _ => answer 200 (Some (page_of five_records 1 5))
  | _ => answer 404 None
  end.

(** A portal that rejects any page size above 10. *)
Definition portal_floor (_ : list event) (c : call) : result response :=
  match c with
  | PesquisaPecasFilter _ _ _ size =>
      if 10 <? size then answer 400 None
      else answer 200 (Some (page_of five_records 1 5))
  | _ => answer 404 None
  end.

(** A portal that answers every call with [status]. *)
Definition portal_status (status : Z) (_ : list event) (_ : call)
  : result response :=
  answer status None.

(** A data directory that already holds page 0 of state 1. *)
Definition stored_world : world :=
  with_json "uf_1_page_0_size_30.json" (page_of five_records 1 5) empty_world.

(** A portal with [per_page] records on every page of every scope, that
    reports [total_pages] pages and [total_elements] elements. *)
Definition portal_pages (per_page : nat) (total_pages total_elements : Z)
  (_ : list event) (c : call) : result response :=
  match c with
  | PesquisaPecasFilter _ _ page _ =>
      answer 200
        (Some (page_of (replicate per_page (record (page + 1) 1))
                 total_pages total_elements))
  | _ => answer 404 None
  end.

(** An entry of the state list, or of a municipality list, that the
    checkpoint [start] passes over: it has an [id], and not that one. *)
Definition before_checkpoint (start : option Z) (item : json) : Prop :=
  ∃ id, Py.get item "id" JNull = Ok id ∧ Py.eq_opt_int id start = false.

(** The metadata file written for a state once its municipalities are
    listed. *)
Definition municipios_file (uf_id : json) : string :=
  "metadata/municipios_uf_" +:+ Py.str uf_id +:+ ".json".

Definition municipios_metadata (uf_id uf_name municipios : json) (total : Z)
  : json :=
  JObj [("uf_id", uf_id); ("uf_name", uf_name);
        ("municipios", municipios); ("total", JNum total)].

Definition place (id : Z) (nome : string) : json :=
  JObj [("id", JNum id); ("nome", JStr nome)].

(** A portal with three states of three municipalities each and one
    record in every scope. *)
Definition portal_three_states (_ : list event) (c : call)
  : result response :=
  match c with
  | GetEstados =>
      answer 200 (Some (JArr [place 4 "AC"; place 5 "AL"; place 6 "AM"]))
  | GetMunicipiosPorUf _ =>
      answer 200 (Some (JArr [place 11 "A"; place 12 "B"; place 13 "C"]))
  | PesquisaPecasFilter _ _ _ _ =>
      answer 200 (Some (page_of [record 101 1] 1 1))
  | DownloadPdf _ _ =>
      Ok {| status_code := 200; json_body := None;
            content_type := Some "application/pdf"; content := "%PDF-1.4" |}
  end.

(** The same portal with the municipality lists out of service. *)
Definition portal_no_municipios (t : list event) (c : call)
  : result response :=
  match c with
  | GetMunicipiosPorUf _ => answer 500 None
  | _ => portal_three_states t c
  end.

(** A data directory that already holds the artifact of record 101. *)
Definition world_with_pdf : world :=
  {| json_dir := ∅;
     pdf_dir := {["certidao_101_tipo_1.pdf" := "%PDF-1.4"]};
     trace := [] |}.

(** The world once the state-level page of state [uf] of
    [portal_three_states] has been fetched into an empty data directory. *)
Definition after_state_page (uf : Z) : world :=
  with_json ("uf_" +:+ pretty uf +:+ "_page_0_size_30.json")
    (page_of [record 101 1] 1 1)
    (log (search (JNum uf) JNull 0 30) empty_world).

(** * The rest of the package: [api_client.py] and [session_manager.py] *)

(** ** [BNMPAPIClient]: the HTTP requests behind the four calls *)

Definition BNMP_API_BASE_URL : string := "https://portalbnmp.cnj.jus.br".

(** [if not url.startswith("http"): url = f"{BNMP_API_BASE_URL}{url}"],
    the first step of [get], [post], [put], [delete] and [request]. *)
Definition resolve_url (url : string) : string :=
  if String.prefix "http" url then url else BNMP_API_BASE_URL +:+ url.

Inductive http_method : Type := GET | POST | PUT | DELETE.

(** What reaches [requests]: the method, the URL, [params=] and [json=]. *)
Record http_request : Type := {
  http_verb : http_method;
  http_url : string;
  http_params : list (string * json);
  http_json : option json;
}.

Definition client_request (verb : http_method) (url : string)
    (params : list (string * json)) (body : option json) : http_request :=
  {| http_verb := verb; http_url := resolve_url url; http_params := params;
     http_json := body |}.

Definition filter_payload (busca_orgao_recursivo : bool)
    (orgao_expeditor id_estado id_municipio : json) : list (string * json) :=
  [("buscaOrgaoRecursivo", JBool busca_orgao_recursivo);
   ("orgaoExpeditor",
    if Py.truthy orgao_expeditor then orgao_expeditor else JObj [])]
  ++ (if is_none id_estado then [] else [("idEstado", id_estado)])
  ++ (if is_none id_municipio then [] else [("idMunicipio", id_municipio)]).

Definition pesquisa_pecas_filter_request (busca_orgao_recursivo : bool)
    (orgao_expeditor id_estado id_municipio : json) (page size : Z)
    (sort : string) : http_request :=
  client_request POST "/bnmpportal/api/pesquisa-pecas/filter"
    [("page", JNum page); ("size", JNum size); ("sort", JStr sort)]
    (Some (JObj (filter_payload busca_orgao_recursivo orgao_expeditor
                   id_estado id_municipio))).

Definition get_estados_request : http_request :=
  client_request GET "/bnmpportal/api/dominio/estados" [] None.

Definition get_municipios_por_uf_request (uf_id : json) : http_request :=
  client_request GET ("/bnmpportal/api/dominio/por-uf/" +:+ Py.str uf_id)
    [] None.

Definition download_pdf_request (certidao_id id_tipo_peca : json)
    : http_request :=
  client_request POST
    ("/bnmpportal/api/certidaos/relatorio/" +:+ Py.str certidao_id +:+ "/"
       +:+ Py.str id_tipo_peca)
    [] None.

(** The request each call of the scraper becomes: the scraper searches
    with [busca_orgao_recursivo=False], [orgao_expeditor={}] and the
    default [sort=""]. *)
Definition wire (c : call) : http_request :=
  match c with
  | PesquisaPecasFilter id_estado id_municipio page size =>
      pesquisa_pecas_filter_request false (JObj []) id_estado id_municipio
        page size ""
  | GetEstados => get_estados_request
  | GetMunicipiosPorUf uf_id => get_municipios_por_uf_request uf_id
  | DownloadPdf certidao_id id_tipo_peca =>
      download_pdf_request certidao_id id_tipo_peca
  end.

(** ** [session_manager.py] *)

(** The exceptions of the session code, beyond those of the scraper. *)
Inductive session_exn : Type :=
| KeyError (key : string)
| ValueError
| Uncaught (e : exn).

Inductive outcome (A : Type) : Type :=
| Done (a : A)
| Failed (e : session_exn).
Arguments Done {A} a.
Arguments Failed {A} e.

Definition and_then {A B} (o : outcome A) (k : A → outcome B) : outcome B :=
  match o with
  | Done a => k a
  | Failed e => Failed e
  end.

Definition of_result {A} (r : result A) : outcome A :=
  match r with
  | Ok a => Done a
  | Raise e => Failed (Uncaught e)
  end.

(** [save_cookies]: the files after the call.  [fingerprint] is a string
    or [None]. *)
Definition save_cookies (cookies : json) (filepath : string)
    (fingerprint : json) (files : gmap string json_file)
    : gmap string json_file :=
  let data :=
    [("cookies", cookies)]
    ++ (if Py.truthy fingerprint then [("fingerprint", fingerprint)] else []) in
  <[filepath := JsonText (JObj data)]> files.

(** [load_cookies]: the cookies and the fingerprint, [None] when absent. *)
Definition load_cookies (filepath : string) (files : gmap string json_file)
    : result (json * json) :=
  match files !! filepath with
  | None => Raise FileNotFoundError
  | Some NotJson => Raise JSONDecodeError
  | Some (JsonText data) =>
      match data with
      | JArr _ => Ok (data, JNull)
      | _ =>
          match Py.get data "cookies" (JArr []) with
          | Raise e => Raise e
          | Ok cookies =>
              match Py.get data "fingerprint" JNull with
              | Raise e => Raise e
              | Ok fingerprint => Ok (cookies, fingerprint)
              end
          end
      end
  end.

(** [x[key]] for a string key. *)
Definition getitem (x : json) (key : string) : outcome json :=
  match x with
  | JObj kvs =>
      match Py.assoc key kvs with
      | Some v => Done v
      | None => Failed (KeyError key)
      end
  | _ => Failed (Uncaught TypeError)
  end.

(** Lists and dicts cannot be dict keys. *)
Definition hashable (x : json) : bool :=
  match x with
  | JArr _ | JObj _ => false
  | _ => true
  end.

(** One [session.cookies.set(name=, value=, domain=, path=)]. *)
Record cookie_set : Type := {
  set_name : json;
  set_value : json;
  set_domain : json;
  set_path : json;
}.

(** A [requests.Session], as the calls made on its cookie jar and the
    assignments made to its headers, oldest first. *)
Record Session : Type := {
  cookie_sets : list cookie_set;
  header_sets : list (string * json);
}.

(** [requests.Session()] *)
Definition new_session : Session := {| cookie_sets := []; header_sets := [] |}.

(** The first loop, [cookie_dict[cookie["name"]] = cookie["value"]]: the
    right-hand side is evaluated first. *)
Fixpoint fill_cookie_dict (cookies : list json) : outcome unit :=
  match cookies with
  | [] => Done tt
  | cookie :: rest =>
      and_then (getitem cookie "value") (λ _,
      and_then (getitem cookie "name") (λ name,
      if hashable name then fill_cookie_dict rest
      else Failed (Uncaught TypeError)))
  end.

(** The second loop. *)
Fixpoint set_cookies (cookies : list json) (jar : list cookie_set)
    : outcome (list cookie_set) :=
  match cookies with
  | [] => Done jar
  | cookie :: rest =>
      and_then (getitem cookie "name") (λ name,
      and_then (getitem cookie "value") (λ value,
      and_then (of_result (Py.get cookie "domain" (JStr ""))) (λ domain,
      and_then (of_result (Py.get cookie "path" (JStr "/"))) (λ path,
      set_cookies rest
        (jar ++ [{| set_name := name; set_value := value;
                    set_domain := domain; set_path := path |}])))))
  end.

Definition create_session_from_cookies (cookies : json) : outcome Session :=
  and_then (of_result (Py.iter cookies)) (λ items,
  and_then (fill_cookie_dict items) (λ _,
  and_then (set_cookies items (cookie_sets new_session)) (λ jar,
  Done {| cookie_sets := jar; header_sets := header_sets new_session |}))).

(** The headers [BNMPAPIClient.__init__] sets on every session. *)
Definition default_headers : list (string * json) :=
  [("User-Agent",
    JStr "Mozilla/5.0 (Windows NT 10.0; Win64; x64) AppleWebKit/537.36 (KHTML, like Gecko) Chrome/143.0.0.0 Safari/537.36");
   ("Accept", JStr "application/json, text/plain, */*");
   ("Accept-Language", JStr "en-US,en;q=0.9,pt-BR;q=0.8,pt;q=0.7");
   ("Content-Type", JStr "application/json;charset=UTF-8");
   ("Referer", JStr "https://portalbnmp.cnj.jus.br/");
   ("Origin", JStr "https://portalbnmp.cnj.jus.br");
   ("DNT", JStr "1");
   ("sec-ch-ua",
    JStr (String.concat (String (Ascii.ascii_of_nat 34) EmptyString)
            [""; "Google Chrome"; ";v="; "143"; ", "; "Chromium"; ";v=";
             "143"; ", "; "Not A(Brand"; ";v="; "24"; ""]));
   ("sec-ch-ua-mobile", JStr "?0");
   ("sec-ch-ua-platform",
    JStr (String.concat (String (Ascii.ascii_of_nat 34) EmptyString)
            [""; "Windows"; ""]));
   ("sec-fetch-dest", JStr "empty");
   ("sec-fetch-mode", JStr "cors");
   ("sec-fetch-site", JStr "same-origin")].

(** [BNMPAPIClient.__init__]: the session of the client.  [cookies] and
    [fingerprint] are [JNull] when not given. *)
Definition BNMPAPIClient_init (cookies : json) (cookies_file : option string)
    (session : option Session) (fingerprint : json)
    (files : gmap string json_file) : outcome Session :=
  and_then
    (match session with
     | Some s => Done (s, fingerprint)
     | None =>
         if negb (is_none cookies) then
           and_then (create_session_from_cookies cookies) (λ s,
           Done (s, fingerprint))
         else
           match cookies_file with
           | Some path =>
               and_then (of_result (load_cookies path files)) (λ loaded,
               and_then (create_session_from_cookies loaded.1) (λ s,
               Done (s, if is_none fingerprint then loaded.2 else fingerprint)))
           | None => Failed ValueError
           end
     end)
    (λ '(s, fingerprint),
       let headers := header_sets s ++ default_headers in
       Done {| cookie_sets := cookie_sets s;
               header_sets :=
                 if Py.truthy fingerprint
                 then headers ++ [("fingerprint", fingerprint)]
                 else headers |}).

(** * Vocabulary of the further properties *)

(** From [w] to [w'] nothing was written and the network was not used. *)
Definition offline (w w' : world) : Prop :=
  json_dir w' = json_dir w ∧ pdf_dir w' = pdf_dir w
  ∧ net_calls (trace w') = net_calls (trace w).

(** A data directory that holds both pages of state 1, page 0 under the
    configured size 30 and page 1 under the five items page 0 has. *)
Definition two_pages_stored : world :=
  with_json "uf_1_page_1_size_5.json" (page_of five_records 2 7)
    (with_json "uf_1_page_0_size_30.json" (page_of five_records 2 7)
       empty_world).

(** The events of the pagination driver on scope [(uf, mun)]: reads of
    page files and searches of that scope. *)
Definition scope_event (uf mun : json) (e : event) : Prop :=
  (∃ filename, e = ReadJson filename)
  ∨ (∃ page size, e = search uf mun page size).

(** The events of the artifact downloader: artifact downloads. *)
Definition artifact_event (e : event) : Prop :=
  ∃ certidao_id id_tipo_peca, e = Net (DownloadPdf certidao_id id_tipo_peca).

(** The events of the crawl of state [uf]: reads of page files, searches
    in that state, the list of its municipalities, artifact downloads. *)
Definition state_event (uf : json) (e : event) : Prop :=
  (∃ filename, e = ReadJson filename)
  ∨ (∃ mun page size, e = search uf mun page size)
  ∨ e = Net (GetMunicipiosPorUf uf)
  ∨ artifact_event e.

(** The page number of a completed fetch. *)
Definition page_num (r : Z * json * option exn) : Z := r.1.1.

(** The number of records a tally accounts for. *)
Definition tally_total (t : tally) : Z := downloaded t + skipped t + errors t.

Definition is_dict (x : json) : Prop := ∃ kvs, x = JObj kvs.

(** Exactly one of the three flags a pool task returns is set. *)
Definition one_flag (flags : bool * bool * bool) : Prop :=
  flags = (true, false, false) ∨ flags = (false, true, false)
  ∨ flags = (false, false, true).

(** The world after the artifact of record 101 was downloaded from
    [portal_three_states] into an empty data directory. *)
Definition after_download : world :=
  {| json_dir := ∅;
     pdf_dir := {["certidao_101_tipo_1.pdf" := "%PDF-1.4"]};
     trace := [Net (DownloadPdf (JNum 101) (JNum 1))] |}.

(** The characters of a decimal integer as an f-string prints it. *)
Definition numeric_char (c : Ascii.ascii) : bool :=
  let n := Ascii.N_of_ascii c in
  (n =? 45)%N || ((48 <=? n)%N && (n <=? 57)%N).

Fixpoint numeric (s : string) : bool :=
  match s with
  | EmptyString => true
  | String c rest => numeric_char c && numeric rest
  end.

(** A scope whose identifiers are integers, as the portal gives them;
    the municipality may be absent. *)
Definition int_scope (uf mun : json) : Prop :=
  (∃ u, uf = JNum u) ∧ (mun = JNull ∨ ∃ m, mun = JNum m).

(** The separators of the file names and of the URLs. *)
Definition underscore : Ascii.ascii := Ascii.ascii_of_nat 95.
Definition dot : Ascii.ascii := Ascii.ascii_of_nat 46.
Definition slash : Ascii.ascii := Ascii.ascii_of_nat 47.

(** A call whose identifiers are integers. *)
Definition int_call (c : call) : Prop :=
  match c with
  | PesquisaPecasFilter uf mun _ _ => int_scope uf mun
  | GetEstados => True
  | GetMunicipiosPorUf uf => ∃ u, uf = JNum u
  | DownloadPdf id tipo => (∃ a, id = JNum a) ∧ (∃ b, tipo = JNum b)
  end.

(** The credential of the tests: one cookie of the portal. *)
Definition sample_cookies : json :=
  JArr [JObj [("name", JStr "portalbnmp"); ("value", JStr "test_token_value");
              ("domain", JStr ".cnj.jus.br"); ("path", JStr "/")]].

(** A cookie the session code accepts: a dict with a [value] and a
    [name] that can be a dict key. *)
Definition good_cookie (c : json) : Prop :=
  ∃ kvs name value,
    c = JObj kvs ∧ Py.assoc "name" kvs = Some name ∧ hashable name = true
    ∧ Py.assoc "value" kvs = Some value.

(** The session [create_session_from_cookies] makes of [sample_cookies],
    and the client made of it with [fingerprint]. *)
Definition sample_session : Session :=
  {| cookie_sets :=
       [{| set_name := JStr "portalbnmp"; set_value := JStr "test_token_value";
           set_domain := JStr ".cnj.jus.br"; set_path := JStr "/" |}];
     header_sets := [] |}.

Definition sample_client (fingerprint : json) : Session :=
  {| cookie_sets := cookie_sets sample_session;
     header_sets := default_headers ++ [("fingerprint", fingerprint)] |}.

(** The world after page 0 of state 1 was fetched from [portal_floor]
    with size 30: the downgrade retry has settled it under the size-10
    key. *)
Definition downgraded_world : world :=
  with_json "uf_1_page_0_size_10.json" (page_of five_records 1 5)
    (log (search (JNum 1) JNull 0 10)
       (log (search (JNum 1) JNull 0 30) empty_world)).

(** A portal whose page 0 holds thirty of the forty records of a scope
    and that rejects any page size above 10 on the pages after it. *)
Definition portal_floor_after_first (_ : list event) (c : call)
  : result response :=
  match c with
  | PesquisaPecasFilter _ _ page size =>
      if page =? 0 then
        answer 200 (Some (page_of (replicate 30 (record 101 1)) 2 40))
      else if 10 <? size then answer 400 None
      else answer 200 (Some (page_of (replicate 10 (record 102 1)) 2 40))
  | _ => answer 404 None
  end.

(** The world once state [uf] of [portal_three_states] has had its
    state-level page fetched and its municipalities listed and written
    to the metadata file, starting from an empty data directory. *)
Definition listed_world (uf : Z) (name : string) : world :=
  with_json (municipios_file (JNum uf))
    (municipios_metadata (JNum uf) (JStr name)
       (JArr [place 11 "A"; place 12 "B"; place 13 "C"]) 3)
    (log (Net (GetMunicipiosPorUf (JNum uf))) (after_state_page uf)).

(** * Properties *)

(** ** The page fetcher, case by case *)

Section PageFetcher.

Variable remote : list event → call → result response.
Variable self : BNMPScraper.

Lemma fetch_cached uf mun page size pre w fn f :
  cached_file self w pre page size = Some (fn, f) →
  _download_single_page remote self uf mun page size pre w
  = (Ok (read_outcome page f), log (ReadJson fn) w).
Proof.
  unfold cached_file, _download_single_page, read_page, bind, json_exists,
    try_except, load_json, ret.
  destruct (json_dir w !! page_filename pre page size) as [f1|] eqn:E1.
  - intros [= <- <-]. simpl. rewrite E1. simpl. rewrite E1. by destruct f1.
  - destruct (json_dir w !! page_filename pre page (page_size self))
      as [f2|] eqn:E2; [|done].
    intros [= <- <-]. simpl. rewrite E2. simpl. rewrite E1. simpl.
    rewrite E2. by destruct f2.
Qed.

Lemma cached_file_None w pre page size :
  cached_file self w pre page size = None ↔ cache_miss self w pre page size.
Proof.
  unfold cached_file, cache_miss.
  destruct (json_dir w !! page_filename pre page size);
    destruct (json_dir w !! page_filename pre page (page_size self));
    split; try done; intros [? ?]; done.
Qed.

Lemma fetch_uncached uf mun page size pre w :
  cache_miss self w pre page size →
  _download_single_page remote self uf mun page size pre w
  = request_page remote uf mun page size pre w.
Proof.
  intros [E1 E2].
  unfold _download_single_page, bind at 1 2, json_exists.
  rewrite E1. simpl. by rewrite E2.
Qed.

Lemma request_page_ok uf mun page size pre w r d :
  remote (trace w) (PesquisaPecasFilter uf mun page size) = Ok r →
  status_code r = 200 →
  json_body r = Some d →
  request_page remote uf mun page size pre w
  = (Ok (page, d, None),
     with_json (page_filename pre page size) d (log (search uf mun page size) w)).
Proof.
  intros Hr Hs Hd.
  unfold request_page, try_except, bind, pesquisa_pecas_filter, request.
  rewrite Hr, Hs. simpl. unfold lift, response_json. by rewrite Hd.
Qed.

Lemma request_page_refused uf mun page size pre w r :
  remote (trace w) (PesquisaPecasFilter uf mun page size) = Ok r →
  status_code r ≠ 200 →
  ¬ (status_code r = 400 ∧ 10 < size) →
  request_page remote uf mun page size pre w
  = (Ok (page, JNull, Some (StatusError (status_code r))),
     log (search uf mun page size) w).
Proof.
  intros Hr Hs Hn.
  unfold request_page, try_except, bind, pesquisa_pecas_filter, request.
  rewrite Hr.
  destruct (status_code r =? 200) eqn:E200; [lia|].
  destruct ((status_code r =? 400) && (10 <? size)) eqn:E400; [|done].
  apply andb_prop in E400 as [? ?]. lia.
Qed.

Section Downgrade.

Variables (uf mun : json) (page size : Z) (pre : string) (w : world).
Variable r1 : response.
Hypothesis first_answer :
  remote (trace w) (PesquisaPecasFilter uf mun page size) = Ok r1.
Hypothesis rejected : status_code r1 = 400.
Hypothesis above_floor : 10 < size.

Lemma request_page_downgrade_ok r2 d :
  remote (trace (log (search uf mun page size) w))
    (PesquisaPecasFilter uf mun page 10) = Ok r2 →
  status_code r2 = 200 →
  json_body r2 = Some d →
  request_page remote uf mun page size pre w
  = (Ok (page, d, None),
     with_json (page_filename pre page 10) d
       (log (search uf mun page 10) (log (search uf mun page size) w))).
Proof.
  intros Hr Hs Hd.
  unfold request_page, try_except, bind, pesquisa_pecas_filter, request.
  rewrite first_answer, rejected. simpl.
  destruct (10 <? size) eqn:E; [|lia].
  unfold search in Hr. rewrite Hr, Hs. simpl.
  unfold lift, response_json. by rewrite Hd.
Qed.

Lemma request_page_downgrade_refused r2 :
  remote (trace (log (search uf mun page size) w))
    (PesquisaPecasFilter uf mun page 10) = Ok r2 →
  status_code r2 ≠ 200 →
  request_page remote uf mun page size pre w
  = (Ok (page, JNull, Some (StatusError (status_code r2))),
     log (search uf mun page 10) (log (search uf mun page size) w)).
Proof.
  intros Hr Hs.
  unfold request_page, try_except, bind, pesquisa_pecas_filter, request.
  rewrite first_answer, rejected. simpl.
  destruct (10 <? size) eqn:E; [|lia].
  unfold search in Hr. rewrite Hr.
  destruct (status_code r2 =? 200) eqn:E200; [lia|done].
Qed.

End Downgrade.

(** C1 (amended).  A page answered with HTTP 200 is persisted under the
    size the fetcher was called with, the size it sent in the request,
    whatever the content [d] of the answer is and however many items it
    holds. *)
Theorem page_persisted_under_requested_size uf mun page size pre w r d :
  cache_miss self w pre page size →
  remote (trace w) (PesquisaPecasFilter uf mun page size) = Ok r →
  status_code r = 200 →
  json_body r = Some d →
  _download_single_page remote self uf mun page size pre w
  = (Ok (page, d, None),
     with_json (page_filename pre page size) d (log (search uf mun page size) w)).
Proof.
  intros Hmiss Hr Hs Hd.
  rewrite fetch_uncached by done. by apply request_page_ok with r.
Qed.

(** Without a file under either probed key the fetcher's first act is the
    request with the size it was called with. *)
Lemma request_page_asks uf mun page size pre w :
  ∃ r evs,
    request_page remote uf mun page size pre w
    = (Ok r, (request_page remote uf mun page size pre w).2)
    ∧ trace (request_page remote uf mun page size pre w).2
      = trace w ++ search uf mun page size :: evs.
Proof.
  unfold request_page, try_except, bind, pesquisa_pecas_filter, request, lift,
    response_json, save_json, ret.
  destruct (remote (trace w) _) as [r1|e1]; simpl; [|by eexists _, []].
  destruct (status_code r1 =? 200); simpl.
  { destruct (json_body r1); simpl; by eexists _, []. }
  destruct ((status_code r1 =? 400) && (10 <? size)); simpl;
    [|by eexists _, []].
  destruct (remote _ _) as [r2|e2]; simpl;
    [|eexists _, [_]; by rewrite <- app_assoc].
  destruct (status_code r2 =? 200); simpl;
    [|eexists _, [_]; by rewrite <- app_assoc].
  destruct (json_body r2); simpl; eexists _, [_]; by rewrite <- app_assoc.
Qed.

(** C3 (amended).  The fetcher looks for a page file under two keys: the
    size it is called with, and else the configured page size.  When a
    file is on disk under one of them, the fetcher returns the content of
    that file and makes no network call and no write, so that a second
    invocation returns the same content, again without a network call.
    When neither key holds a file the fetcher asks the portal, whatever
    other page files the store holds: a page that the downgrade retry
    persisted under the size-10 key is not looked for. *)
Theorem fetch_from_store_is_idempotent uf mun page size pre w :
  (∀ d,
     json_dir w !! page_filename pre page size = Some (JsonText d)
     ∨ (json_dir w !! page_filename pre page size = None
        ∧ json_dir w !! page_filename pre page (page_size self)
          = Some (JsonText d)) →
     ∃ w1 w2,
       _download_single_page remote self uf mun page size pre w
       = (Ok (page, d, None), w1)
       ∧ _download_single_page remote self uf mun page size pre w1
         = (Ok (page, d, None), w2)
       ∧ net_calls (trace w1) = net_calls (trace w)
       ∧ net_calls (trace w2) = net_calls (trace w)
       ∧ json_dir w2 = json_dir w)
  ∧ (cache_miss self w pre page size →
     ∃ r w1 evs,
       _download_single_page remote self uf mun page size pre w = (Ok r, w1)
       ∧ trace w1 = trace w ++ search uf mun page size :: evs).
Proof.
  split.
  - intros d Hfile.
    assert (∃ fn, cached_file self w pre page size = Some (fn, JsonText d))
      as [fn Hc].
    { unfold cached_file. destruct Hfile as [-> | [-> ->]]; eauto. }
    exists (log (ReadJson fn) w), (log (ReadJson fn) (log (ReadJson fn) w)).
    rewrite (fetch_cached _ _ _ _ _ _ _ _ Hc).
    assert (cached_file self (log (ReadJson fn) w) pre page size
            = Some (fn, JsonText d)) as Hc1 by done.
    rewrite (fetch_cached _ _ _ _ _ _ _ _ Hc1). simpl.
    unfold net_calls. rewrite !filter_app. simpl. rewrite !app_nil_r.
    done.
  - intros Hmiss. rewrite fetch_uncached by done.
    destruct (request_page_asks uf mun page size pre w) as (r & evs & Hr & Ht).
    by exists r, (request_page remote uf mun page size pre w).2, evs.
Qed.

(** C4.  A page request answered with HTTP 400 for a size above 10 is
    retried once with size 10: a 200 to the retry persists the page under
    the size-10 key and returns it, any other status to the retry is
    returned as an error carrying that status.  Any other first answer
    that is not a 200 is returned as an error carrying its status after
    that single request. *)
Theorem downgrade_retry uf mun page size pre w r1 :
  cache_miss self w pre page size →
  remote (trace w) (PesquisaPecasFilter uf mun page size) = Ok r1 →
  status_code r1 ≠ 200 →
  (status_code r1 = 400 ∧ 10 < size →
   ∀ r2,
     remote (trace (log (search uf mun page size) w))
       (PesquisaPecasFilter uf mun page 10) = Ok r2 →
     (∀ d, status_code r2 = 200 → json_body r2 = Some d →
        _download_single_page remote self uf mun page size pre w
        = (Ok (page, d, None),
           with_json (page_filename pre page 10) d
             (log (search uf mun page 10) (log (search uf mun page size) w))))
     ∧ (status_code r2 ≠ 200 →
        _download_single_page remote self uf mun page size pre w
        = (Ok (page, JNull, Some (StatusError (status_code r2))),
           log (search uf mun page 10) (log (search uf mun page size) w))))
  ∧ (¬ (status_code r1 = 400 ∧ 10 < size) →
     _download_single_page remote self uf mun page size pre w
     = (Ok (page, JNull, Some (StatusError (status_code r1))),
        log (search uf mun page size) w)).
Proof.
  intros Hmiss Hr1 Hs1. rewrite fetch_uncached by done. split.
  - intros [H400 Hsize] r2 Hr2. split.
    + intros d Hs2 Hd. by apply request_page_downgrade_ok with r1 r2.
    + intros Hs2. by apply request_page_downgrade_refused with r1.
  - intros Hno. by apply request_page_refused.
Qed.

End PageFetcher.

Lemma page_persisted_under_requested_size_witness :
  _download_single_page portal_five default_scraper (JNum 1) JNull 0 30 "uf_1"
    empty_world
  = (Ok (0, page_of five_records 1 5, None),
     with_json "uf_1_page_0_size_30.json" (page_of five_records 1 5)
       (log (search (JNum 1) JNull 0 30) empty_world)).
Proof.
  apply (page_persisted_under_requested_size portal_five default_scraper
           (JNum 1) JNull 0 30 "uf_1" empty_world
           {| status_code := 200; json_body := Some (page_of five_records 1 5);
              content_type := None; content := "" |}).
  - split; reflexivity.
  - reflexivity.
  - reflexivity.
  - reflexivity.
Defined.

(** C1, refuted as stated: asked for 30 items the portal returns 5; the
    page is stored under the size-30 key and nothing under the size-5
    key. *)
Lemma page_key_is_not_the_item_count :
  let w := (_download_single_page portal_five default_scraper (JNum 1) JNull
              0 30 "uf_1" empty_world).2 in
  Py.len (JArr five_records) = Ok 5
  ∧ json_dir w !! "uf_1_page_0_size_30.json"
    = Some (JsonText (page_of five_records 1 5))
  ∧ json_dir w !! "uf_1_page_0_size_5.json" = None.
Proof. vm_compute. done. Qed.

Lemma fetch_from_store_is_idempotent_witness :
  (∃ w1 w2,
     _download_single_page portal_five default_scraper (JNum 1) JNull 0 30
       "uf_1" stored_world
     = (Ok (0, page_of five_records 1 5, None), w1)
     ∧ _download_single_page portal_five default_scraper (JNum 1) JNull 0 30
         "uf_1" w1
       = (Ok (0, page_of five_records 1 5, None), w2)
     ∧ net_calls (trace w1) = net_calls (trace stored_world)
     ∧ net_calls (trace w2) = net_calls (trace stored_world)
     ∧ json_dir w2 = json_dir stored_world)
  ∧ ∃ r w1 evs,
      _download_single_page portal_floor default_scraper (JNum 1) JNull 0 30
        "uf_1" downgraded_world = (Ok r, w1)
      ∧ trace w1
        = trace downgraded_world ++ search (JNum 1) JNull 0 30 :: evs.
Proof.
  split.
  - apply (fetch_from_store_is_idempotent portal_five default_scraper
             (JNum 1) JNull 0 30 "uf_1" stored_world).
    left. vm_compute. reflexivity.
  - apply (fetch_from_store_is_idempotent portal_floor default_scraper
             (JNum 1) JNull 0 30 "uf_1" downgraded_world).
    split; vm_compute; reflexivity.
Defined.

Lemma downgrade_retry_witness :
  _download_single_page portal_floor default_scraper (JNum 1) JNull 0 30
    "uf_1" empty_world
  = (Ok (0, page_of five_records 1 5, None),
     with_json "uf_1_page_0_size_10.json" (page_of five_records 1 5)
       (log (search (JNum 1) JNull 0 10)
          (log (search (JNum 1) JNull 0 30) empty_world)))
  ∧ _download_single_page (portal_status 400) default_scraper (JNum 1) JNull
      0 30 "uf_1" empty_world
    = (Ok (0, JNull, Some (StatusError 400)),
       log (search (JNum 1) JNull 0 10)
         (log (search (JNum 1) JNull 0 30) empty_world))
  ∧ _download_single_page (portal_status 500) default_scraper (JNum 1) JNull
      0 30 "uf_1" empty_world
    = (Ok (0, JNull, Some (StatusError 500)),
       log (search (JNum 1) JNull 0 30) empty_world).
Proof.
  pose (r400 := {| status_code := 400; json_body := None;
                   content_type := None; content := "" |}).
  pose (r500 := {| status_code := 500; json_body := None;
                   content_type := None; content := "" |}).
  pose (r200 := {| status_code := 200;
                   json_body := Some (page_of five_records 1 5);
                   content_type := None; content := "" |}).
  assert (cache_miss default_scraper empty_world "uf_1" 0 30) as Hmiss
    by (split; reflexivity).
  split; [|split].
  - refine (proj1 (proj1 (downgrade_retry portal_floor default_scraper
                            (JNum 1) JNull 0 30 "uf_1" empty_world r400
                            Hmiss eq_refl _) _ r200 eq_refl) _ eq_refl eq_refl).
    + simpl; lia.
    + simpl; lia.
  - refine (proj2 (proj1 (downgrade_retry (portal_status 400) default_scraper
                            (JNum 1) JNull 0 30 "uf_1" empty_world r400
                            Hmiss eq_refl _) _ r400 eq_refl) _).
    + simpl; lia.
    + simpl; lia.
    + simpl; lia.
  - refine (proj2 (downgrade_retry (portal_status 500) default_scraper
                     (JNum 1) JNull 0 30 "uf_1" empty_world r500
                     Hmiss eq_refl _) _).
    + simpl; lia.
    + simpl; lia.
Defined.

(** ** The events of one fetch, and of the page loops *)

Section Driver.

Variable remote : list event → call → result response.
Variable schedule : ∀ A : Type, list A → list A.
Variable self : BNMPScraper.

Lemma request_page_trace uf mun page size pre w :
  ∃ r evs,
    (request_page remote uf mun page size pre w).1 = Ok r
    ∧ trace (request_page remote uf mun page size pre w).2 = trace w ++ evs
    ∧ fetch_events uf mun page size evs.
Proof.
  unfold request_page, try_except, bind, pesquisa_pecas_filter, request, lift,
    response_json, save_json, ret.
  destruct (remote (trace w) _) as [r1|e1]; simpl.
  2: { eexists _, _. split; [done|]. split; [done|]. apply fetch_once. }
  destruct (status_code r1 =? 200); simpl.
  { destruct (json_body r1); simpl;
      (eexists _, _; split; [done|]; split; [done|]; apply fetch_once). }
  destruct ((status_code r1 =? 400) && (10 <? size)) eqn:E400; simpl.
  2: { eexists _, _. split; [done|]. split; [done|]. apply fetch_once. }
  apply andb_prop in E400 as [_ Hsize%Z.ltb_lt].
  destruct (remote _ _) as [r2|e2]; simpl.
  2: { eexists _, _. split; [done|]. split; [by rewrite <- app_assoc|].
       by apply fetch_retried. }
  destruct (status_code r2 =? 200); simpl.
  { destruct (json_body r2); simpl;
      (eexists _, _; split; [done|]; split; [by rewrite <- app_assoc|];
       by apply fetch_retried). }
  eexists _, _. split; [done|]. split; [by rewrite <- app_assoc|].
  by apply fetch_retried.
Qed.

(** One invocation of the page fetcher never raises and leaves the events
    of one fetch with the size it was called with. *)
Lemma fetch_trace uf mun page size pre w :
  ∃ r evs,
    (_download_single_page remote self uf mun page size pre w).1 = Ok r
    ∧ trace (_download_single_page remote self uf mun page size pre w).2
      = trace w ++ evs
    ∧ fetch_events uf mun page size evs.
Proof.
  destruct (cached_file self w pre page size) as [[fn f]|] eqn:Hc.
  - rewrite (fetch_cached _ _ _ _ _ _ _ _ _ _ Hc).
    eexists _, _. split; [done|]. split; [done|]. apply fetch_read.
  - apply cached_file_None in Hc. rewrite fetch_uncached by done.
    apply request_page_trace.
Qed.

Lemma sequential_trace uf mun size pre pages :
  ∀ acc w, ∃ fetched blocks,
    trace (download_pages_sequential remote self uf mun size pre pages acc w).2
    = trace w ++ concat blocks
    ∧ Forall2 (λ page evs, fetch_events uf mun page size evs) fetched blocks
    ∧ fetched `prefix_of` pages.
Proof.
  induction pages as [|page rest IH]; intros acc w; simpl.
  { exists [], []. simpl. rewrite app_nil_r. split; [done|]. by split. }
  destruct (max_results_per_combination self <=? Z.of_nat (length acc)).
  { exists [], []. simpl. rewrite app_nil_r. split; [done|].
    split; [done|]. apply prefix_nil. }
  unfold bind at 1.
  destruct (fetch_trace uf mun page size pre w) as (r & evs & Hr & Ht & Hev).
  destruct (_download_single_page remote self uf mun page size pre w)
    as [[r'|e] w1]; simpl in *; [|done].
  injection Hr as ->. destruct r as [[p data] err].
  assert (∃ fetched blocks,
            trace w1 = trace w ++ concat blocks
            ∧ Forall2 (λ page evs, fetch_events uf mun page size evs)
                fetched blocks
            ∧ fetched `prefix_of` page :: rest) as Hstop.
  { exists [page], [evs]. simpl. rewrite app_nil_r. split; [done|].
    split; [by repeat constructor|]. apply prefix_cons, prefix_nil. }
  destruct err as [e|]; [done|].
  assert (∀ acc', ∃ fetched blocks,
            trace (download_pages_sequential remote self uf mun size pre
                     rest acc' w1).2 = trace w ++ concat blocks
            ∧ Forall2 (λ page evs, fetch_events uf mun page size evs)
                fetched blocks
            ∧ fetched `prefix_of` page :: rest) as Hgo.
  { intros acc'. destruct (IH acc' w1) as (fetched & blocks & Ht' & Hf & Hp).
    exists (page :: fetched), (evs :: blocks). simpl.
    rewrite Ht', Ht, <- app_assoc. split; [done|].
    split; [by constructor|]. by apply prefix_cons. }
  destruct (Py.truthy data); [|apply Hgo].
  unfold bind, lift. destruct (page_content data); simpl; [apply Hgo|done].
Qed.

Lemma mapM_fetch_trace uf mun size pre pages :
  ∀ w, ∃ rs blocks,
    (mapM (λ page, _download_single_page remote self uf mun page size pre)
       pages w).1 = Ok rs
    ∧ trace (mapM (λ page, _download_single_page remote self uf mun page size pre)
               pages w).2 = trace w ++ concat blocks
    ∧ Forall2 (λ page evs, fetch_events uf mun page size evs) pages blocks.
Proof.
  induction pages as [|page rest IH]; intros w; simpl.
  { exists [], []. simpl. by rewrite app_nil_r. }
  unfold bind at 1 3.
  destruct (fetch_trace uf mun page size pre w) as (r & evs & Hr & Ht & Hev).
  destruct (_download_single_page remote self uf mun page size pre w)
    as [[r'|e] w1]; simpl in *; [|done].
  injection Hr as ->.
  destruct (IH w1) as (rs & blocks & Hrs & Ht' & Hf).
  unfold bind.
  destruct (mapM _ rest w1) as [[rs'|e] w2]; simpl in *; [|done].
  exists (r :: rs'), (evs :: blocks). simpl.
  rewrite Ht', Ht, <- app_assoc. split; [done|]. split; [done|].
  by constructor.
Qed.

(** The pool runs every submitted task exactly once. *)
Hypothesis schedule_fair : ∀ (A : Type) (tasks : list A), schedule A tasks ≡ₚ tasks.

Lemma parallel_trace uf mun size pre pages acc w :
  ∃ fetched blocks,
    trace (download_pages_parallel remote schedule self uf mun size pre
             pages acc w).2 = trace w ++ concat blocks
    ∧ Forall2 (λ page evs, fetch_events uf mun page size evs) fetched blocks
    ∧ fetched ≡ₚ pages.
Proof.
  unfold download_pages_parallel, bind at 1.
  destruct (mapM_fetch_trace uf mun size pre (schedule Z pages) w)
    as (rs & blocks & Hrs & Ht & Hf).
  destruct (mapM _ (schedule Z pages) w) as [[rs'|e] w1]; simpl in *; [|done].
  exists (schedule Z pages), blocks. split; [|by split].
  unfold bind, lift. destruct (collect_pages rs' ∅) as [found|e]; simpl; [|done].
  by destruct (extend_all (sorted_items found) acc).
Qed.

(** Whichever of the two modes runs, the pages fetched are among
    [pages], each at most once more than it is listed. *)
Lemma page_loop_trace uf mun size pre pages acc w (pooled : bool) :
  ∃ fetched blocks,
    trace ((if pooled
            then download_pages_parallel remote schedule self uf mun size pre
                   pages acc
            else download_pages_sequential remote self uf mun size pre
                   pages acc) w).2 = trace w ++ concat blocks
    ∧ Forall2 (λ page evs, fetch_events uf mun page size evs) fetched blocks
    ∧ fetched ⊆+ pages.
Proof.
  destruct pooled.
  - destruct (parallel_trace uf mun size pre pages acc w)
      as (fetched & blocks & Ht & Hf & Hp).
    exists fetched, blocks. split; [done|]. split; [done|].
    by apply Permutation_submseteq.
  - destruct (sequential_trace uf mun size pre pages acc w)
      as (fetched & blocks & Ht & Hf & Hp).
    exists fetched, blocks. split; [done|]. split; [done|].
    destruct Hp as [k ->]. by apply submseteq_inserts_r.
Qed.

(** What follows page 0: the fetches all carry the number [n] of items of
    page 0 as their size, and they are for pages of [range(1, total)],
    where [total] is the cap whenever page 0 reports at least
    [max_results_per_combination] elements. *)
Lemma download_remaining_trace uf mun pre d w c n :
  Py.get d "content" (JArr []) = Ok c →
  Py.len c = Ok n →
  ∃ fetched blocks total,
    trace (download_remaining remote schedule self uf mun pre d w).2
    = trace w ++ concat blocks
    ∧ Forall2 (λ page evs, fetch_events uf mun page n evs) fetched blocks
    ∧ fetched ⊆+ pages_to_download total
    ∧ (∀ te reported,
         Py.get d "totalElements" (JNum 0) = Ok te →
         Py.as_int te = Ok reported →
         max_results_per_combination self ≤ reported →
         total = ceil_div (max_results_per_combination self) n).
Proof.
  intros Hc Hn.
  pose (cap := ceil_div (max_results_per_combination self) n).
  assert (∀ w', ∃ (fetched : list Z) (blocks : list (list event)) total,
            trace w' = trace w' ++ concat blocks
            ∧ Forall2 (λ page evs, fetch_events uf mun page n evs)
                fetched blocks
            ∧ fetched ⊆+ pages_to_download total
            ∧ (∀ te reported,
                 Py.get d "totalElements" (JNum 0) = Ok te →
                 Py.as_int te = Ok reported →
                 max_results_per_combination self ≤ reported →
                 total = cap)) as Hnoop.
  { intros w'. exists [], [], cap. simpl. rewrite app_nil_r.
    split; [done|]. split; [constructor|]. split; [|done].
    apply submseteq_nil_l. }
  unfold download_remaining, bind, lift, ret.
  destruct (Py.get d "totalPages" (JNum 1)) as [tpj|e] eqn:Etp; [|apply Hnoop].
  destruct (Py.get d "totalElements" (JNum 0)) as [te|e] eqn:Ete;
    [|apply Hnoop].
  rewrite Hc, Hn.
  destruct (Py.as_int te) as [reported|e] eqn:Erep; [|apply Hnoop].
  assert (∀ total items,
            (max_results_per_combination self ≤ reported → total = cap) →
            ∃ fetched blocks total',
              trace ((if 1 <? total
                      then if (1 <? max_workers self)
                              && (1 <? Z.of_nat (length (pages_to_download total)))
                           then download_pages_parallel remote schedule self
                                  uf mun n pre (pages_to_download total) items
                           else download_pages_sequential remote self
                                  uf mun n pre (pages_to_download total) items
                      else λ w0, (Ok items, w0)) w).2
              = trace w ++ concat blocks
              ∧ Forall2 (λ page evs, fetch_events uf mun page n evs)
                  fetched blocks
              ∧ fetched ⊆+ pages_to_download total'
              ∧ (∀ te' reported',
                   Ok te = Ok te' → Py.as_int te' = Ok reported' →
                   max_results_per_combination self ≤ reported' →
                   total' = cap)) as Hloop.
  { intros total items Htotal.
    assert (∀ te' reported',
              Ok te = Ok te' → Py.as_int te' = Ok reported' →
              max_results_per_combination self ≤ reported' →
              total = cap) as Hcap.
    { intros te' reported' [= <-] Hrep' Hle. rewrite Erep in Hrep'.
      injection Hrep' as <-. by apply Htotal. }
    destruct (1 <? total).
    - destruct (page_loop_trace uf mun n pre (pages_to_download total) items w
                  ((1 <? max_workers self)
                   && (1 <? Z.of_nat (length (pages_to_download total)))))
        as (fetched & blocks & Ht & Hf & Hp).
      exists fetched, blocks, total. split; [|done].
      by destruct ((1 <? max_workers self) && _).
    - exists [], [], total. simpl. rewrite app_nil_r. split; [done|].
      split; [constructor|]. split; [apply submseteq_nil_l|done]. }
  destruct (max_results_per_combination self <=? reported) eqn:Ecap.
  - unfold Py.floordiv. destruct (n =? 0); [apply Hnoop|].
    destruct (Py.iter c) as [items|e]; [|apply Hnoop]. simpl.
    by apply Hloop.
  - destruct (Py.iter c) as [items|e]; [|apply Hnoop].
    destruct (Py.as_int tpj) as [total|e]; [|apply Hnoop].
    apply Hloop. lia.
Qed.

Lemma ceil_div_spec a b :
  0 < b → (ceil_div a b - 1) * b < a ≤ ceil_div a b * b.
Proof.
  intros Hb. unfold ceil_div.
  pose proof (Z.div_mod (a + b - 1) b ltac:(lia)) as Hdm.
  pose proof (Z.mod_pos_bound (a + b - 1) b Hb) as Hr.
  nia.
Qed.

Lemma download_filter_results_after_first uf mun w d w0 :
  _download_single_page remote self uf mun 0 (page_size self)
    (filename_prefix_of uf mun) w = (Ok (0, d, None), w0) →
  Py.truthy d = true →
  download_filter_results remote schedule self uf mun w
  = download_remaining remote schedule self uf mun (filename_prefix_of uf mun)
      d w0.
Proof.
  intros H0 Hd. unfold download_filter_results, bind. rewrite H0. simpl.
  by rewrite Hd.
Qed.

(** C5 (amended).  Once page 0 is in hand with [n] items in its content,
    every invocation of the page fetcher that follows in the same run of
    the driver is for a page after page 0 and is made with size [n]: the
    events of the run after page 0 split into the events of fetches of
    size [n].  Such a fetch reads a stored file, or requests the page
    with size [n]; the one other request it can make is the downgrade
    retry with size 10, right after the request with size [n], and only
    when [n] is above 10. *)
Theorem later_pages_use_effective_size uf mun w d w0 c n :
  _download_single_page remote self uf mun 0 (page_size self)
    (filename_prefix_of uf mun) w = (Ok (0, d, None), w0) →
  Py.truthy d = true →
  Py.get d "content" (JArr []) = Ok c →
  Py.len c = Ok n →
  ∃ fetched blocks,
    trace (download_filter_results remote schedule self uf mun w).2
    = trace w0 ++ concat blocks
    ∧ Forall2 (λ page evs, 1 ≤ page ∧ fetch_events uf mun page n evs)
        fetched blocks.
Proof.
  intros H0 Hd Hc Hn.
  rewrite (download_filter_results_after_first _ _ _ _ _ H0 Hd).
  destruct (download_remaining_trace uf mun (filename_prefix_of uf mun) d w0
              c n Hc Hn) as (fetched & blocks & total & Ht & Hf & Hp & _).
  exists fetched, blocks. split; [done|].
  assert (Forall (λ page, 1 ≤ page) fetched) as Hge.
  { apply Forall_forall. intros page Hin.
    eapply elem_of_submseteq in Hin; [|done].
    unfold pages_to_download in Hin. apply elem_of_seqZ in Hin. lia. }
  clear -Hf Hge. induction Hf; [constructor|].
  apply Forall_cons in Hge as [? ?]. constructor; auto.
Qed.

(** C6.  When page 0 reports at least [max_results_per_combination]
    elements, the driver invokes the page fetcher for no more than
    [ceil(max_results_per_combination / n)] pages, page 0 included, [n]
    being the number of items of page 0; with 50000 elements reported, a
    maximum of 10000 and 30 items that is at most 334 pages. *)
Theorem page_count_is_capped uf mun w d w0 c n te reported :
  _download_single_page remote self uf mun 0 (page_size self)
    (filename_prefix_of uf mun) w = (Ok (0, d, None), w0) →
  Py.truthy d = true →
  Py.get d "content" (JArr []) = Ok c →
  Py.len c = Ok n →
  0 < n →
  Py.get d "totalElements" (JNum 0) = Ok te →
  Py.as_int te = Ok reported →
  max_results_per_combination self ≤ reported →
  0 < max_results_per_combination self →
  ∃ fetched blocks,
    trace (download_filter_results remote schedule self uf mun w).2
    = trace w0 ++ concat blocks
    ∧ Forall2 (λ page evs, fetch_events uf mun page n evs) fetched blocks
    ∧ 1 + Z.of_nat (length fetched)
      ≤ ceil_div (max_results_per_combination self) n
    ∧ (ceil_div (max_results_per_combination self) n - 1) * n
      < max_results_per_combination self
      ≤ ceil_div (max_results_per_combination self) n * n
    ∧ (reported = 50000 → max_results_per_combination self = 10000 →
       n = 30 → 1 + Z.of_nat (length fetched) ≤ 334).
Proof.
  intros H0 Hd Hc Hn Hpos Hte Hrep Hle Hmax.
  rewrite (download_filter_results_after_first _ _ _ _ _ H0 Hd).
  destruct (download_remaining_trace uf mun (filename_prefix_of uf mun) d w0
              c n Hc Hn) as (fetched & blocks & total & Ht & Hf & Hp & Hcap).
  specialize (Hcap te reported Hte Hrep Hle). subst total.
  pose proof (ceil_div_spec (max_results_per_combination self) n Hpos) as Hceil.
  assert (1 + Z.of_nat (length fetched)
          ≤ ceil_div (max_results_per_combination self) n) as Hcount.
  { apply submseteq_length in Hp. unfold pages_to_download in Hp.
    rewrite length_seqZ in Hp. nia. }
  exists fetched, blocks. repeat split; try done; lia.
Qed.

(** C10.  When page 0 succeeds with an empty content list and reports at
    least [max_results_per_combination] elements, the driver raises
    [ZeroDivisionError] out of the cap computation instead of returning a
    result. *)
Theorem empty_first_page_divides_by_zero uf mun w d w0 te reported :
  _download_single_page remote self uf mun 0 (page_size self)
    (filename_prefix_of uf mun) w = (Ok (0, d, None), w0) →
  Py.truthy d = true →
  Py.get d "content" (JArr []) = Ok (JArr []) →
  Py.get d "totalElements" (JNum 0) = Ok te →
  Py.as_int te = Ok reported →
  max_results_per_combination self ≤ reported →
  download_filter_results remote schedule self uf mun w
  = (Raise ZeroDivisionError, w0).
Proof.
  intros H0 Hd Hc Hte Hrep Hle.
  rewrite (download_filter_results_after_first _ _ _ _ _ H0 Hd).
  assert (∃ tp, Py.get d "totalPages" (JNum 1) = Ok tp) as [tp Htp].
  { destruct d; try done. by eexists. }
  unfold download_remaining, bind, lift.
  rewrite Htp, Hte, Hc. simpl. rewrite Hrep.
  destruct (max_results_per_combination self <=? reported) eqn:E; [done|lia].
Qed.

End Driver.

Lemma in_order_fair (A : Type) (tasks : list A) : in_order A tasks ≡ₚ tasks.
Proof. reflexivity. Qed.

Lemma later_pages_use_effective_size_witness :
  ∃ fetched blocks,
    trace (download_filter_results (portal_pages 5 3 12) in_order
             default_scraper (JNum 1) JNull empty_world).2
    = trace (with_json "uf_1_page_0_size_30.json"
               (page_of (replicate 5 (record 1 1)) 3 12)
               (log (search (JNum 1) JNull 0 30) empty_world))
      ++ concat blocks
    ∧ Forall2 (λ page evs, 1 ≤ page ∧ fetch_events (JNum 1) JNull page 5 evs)
        fetched blocks.
Proof.
  apply (later_pages_use_effective_size (portal_pages 5 3 12) in_order
           default_scraper in_order_fair (JNum 1) JNull empty_world
           (page_of (replicate 5 (record 1 1)) 3 12) _
           (JArr (replicate 5 (record 1 1))) 5).
  - vm_compute. reflexivity.
  - reflexivity.
  - reflexivity.
  - reflexivity.
Defined.

Lemma page_count_is_capped_witness :
  ∃ fetched blocks,
    trace (download_filter_results (portal_pages 30 1667 50000) in_order
             default_scraper (JNum 1) JNull empty_world).2
    = trace (with_json "uf_1_page_0_size_30.json"
               (page_of (replicate 30 (record 1 1)) 1667 50000)
               (log (search (JNum 1) JNull 0 30) empty_world))
      ++ concat blocks
    ∧ Forall2 (λ page evs, fetch_events (JNum 1) JNull page 30 evs)
        fetched blocks
    ∧ 1 + Z.of_nat (length fetched) ≤ ceil_div 10000 30
    ∧ (ceil_div 10000 30 - 1) * 30 < 10000 ≤ ceil_div 10000 30 * 30
    ∧ (50000 = 50000 → 10000 = 10000 → 30 = 30 →
       1 + Z.of_nat (length fetched) ≤ 334).
Proof.
  apply (page_count_is_capped (portal_pages 30 1667 50000) in_order
           default_scraper in_order_fair (JNum 1) JNull empty_world
           (page_of (replicate 30 (record 1 1)) 1667 50000) _
           (JArr (replicate 30 (record 1 1))) 30 (JNum 50000) 50000).
  - vm_compute. reflexivity.
  - reflexivity.
  - reflexivity.
  - reflexivity.
  - lia.
  - reflexivity.
  - reflexivity.
  - simpl. lia.
  - simpl. lia.
Defined.

Lemma empty_first_page_divides_by_zero_witness :
  download_filter_results (portal_pages 0 1667 50000) in_order
    default_scraper (JNum 1) JNull empty_world
  = (Raise ZeroDivisionError,
     with_json "uf_1_page_0_size_30.json" (page_of [] 1667 50000)
       (log (search (JNum 1) JNull 0 30) empty_world)).
Proof.
  apply (empty_first_page_divides_by_zero (portal_pages 0 1667 50000) in_order
           default_scraper (JNum 1) JNull empty_world
           (page_of [] 1667 50000) _ (JNum 50000) 50000).
  - vm_compute. reflexivity.
  - reflexivity.
  - reflexivity.
  - reflexivity.
  - reflexivity.
  - simpl. lia.
Defined.

(** ** Which events each operation can add to the trace *)

Section Emits.

Variable remote : list event → call → result response.
Variable schedule : ∀ A : Type, list A → list A.
Variable self : BNMPScraper.
Variable P : event → Prop.

Lemma emits_ret {A} (a : A) : emits P (ret a).
Proof. intros w. exists []. simpl. by rewrite app_nil_r. Qed.

Lemma emits_lift {A} (r : result A) : emits P (lift r).
Proof. intros w. exists []. simpl. by rewrite app_nil_r. Qed.

Lemma emits_bind {A B} (m : M A) (k : A → M B) :
  emits P m → (∀ a, emits P (k a)) → emits P (bind m k).
Proof.
  intros Hm Hk w. unfold bind. destruct (Hm w) as (evs & Ht & HP).
  destruct (m w) as [[a|e] w1]; simpl in *; [|by exists evs].
  destruct (Hk a w1) as (evs' & Ht' & HP').
  exists (evs ++ evs'). rewrite Ht', Ht, <- app_assoc. split; [done|].
  by apply Forall_app.
Qed.

Lemma emits_try_except {A} (m : M A) (h : exn → M A) :
  emits P m → (∀ e, emits P (h e)) → emits P (try_except m h).
Proof.
  intros Hm Hh w. unfold try_except. destruct (Hm w) as (evs & Ht & HP).
  destruct (m w) as [[a|e] w1]; simpl in *; [by exists evs|].
  destruct (Hh e w1) as (evs' & Ht' & HP').
  exists (evs ++ evs'). rewrite Ht', Ht, <- app_assoc. split; [done|].
  by apply Forall_app.
Qed.

Lemma emits_submit {A} (m : M A) : emits P m → emits P (submit m).
Proof.
  intros Hm w. unfold submit. destruct (Hm w) as (evs & Ht & HP).
  destruct (m w) as [r w1]. by exists evs.
Qed.

Lemma emits_mapM {A B} (f : A → M B) (xs : list A) :
  (∀ x, emits P (f x)) → emits P (mapM f xs).
Proof.
  intros Hf. induction xs as [|x rest IH]; simpl; [apply emits_ret|].
  apply emits_bind; [done|]. intros y.
  apply emits_bind; [done|]. intros ys. apply emits_ret.
Qed.

Lemma emits_request c : P (Net c) → emits P (request remote c).
Proof. intros HP w. exists [Net c]. split; [done|]. by constructor. Qed.

Lemma emits_save_json d fn : emits P (save_json d fn).
Proof. intros w. exists []. simpl. by rewrite app_nil_r. Qed.

Lemma emits_save_pdf b fn : emits P (save_pdf b fn).
Proof. intros w. exists []. simpl. by rewrite app_nil_r. Qed.

Lemma emits_json_exists fn : emits P (json_exists fn).
Proof. intros w. exists []. simpl. by rewrite app_nil_r. Qed.

Lemma emits_pdf_exists fn : emits P (pdf_exists fn).
Proof. intros w. exists []. simpl. by rewrite app_nil_r. Qed.

Lemma emits_load_json fn : P (ReadJson fn) → emits P (load_json fn).
Proof.
  intros HP w. unfold load_json. destruct (json_dir w !! fn).
  - exists [ReadJson fn]. split; [done|]. by constructor.
  - exists []. simpl. by rewrite app_nil_r.
Qed.

Ltac emits_step :=
  first
    [ apply emits_ret | apply emits_lift | apply emits_save_json
    | apply emits_save_pdf | apply emits_json_exists | apply emits_pdf_exists
    | apply emits_bind; [|intros ?]
    | apply emits_try_except; [|intros ?]
    | apply emits_submit
    | apply emits_mapM; intros ?
    | match goal with
      | |- emits _ (if ?b then _ else _) => destruct b
      | |- emits _ (match ?x with _ => _ end) => destruct x
      end ].

(** The scope-level operations only read page files, search and fetch
    artifacts. *)
Hypothesis P_read : ∀ fn, P (ReadJson fn).
Hypothesis P_search : ∀ uf mun page size, P (search uf mun page size).
Hypothesis P_pdf : ∀ id tipo, P (Net (DownloadPdf id tipo)).

Lemma emits_fetch uf mun page size pre :
  emits P (_download_single_page remote self uf mun page size pre).
Proof.
  unfold _download_single_page, read_page, request_page,
    pesquisa_pecas_filter.
  repeat first [emits_step | apply emits_request, P_search
               | apply emits_load_json, P_read].
Qed.

Lemma emits_sequential uf mun size pre pages :
  ∀ acc, emits P (download_pages_sequential remote self uf mun size pre
                    pages acc).
Proof.
  induction pages as [|page rest IH]; intros acc; simpl.
  - apply emits_ret.
  - repeat first [apply IH | apply emits_fetch | emits_step].
Qed.

Lemma emits_driver uf mun :
  emits P (download_filter_results remote schedule self uf mun).
Proof.
  unfold download_filter_results, download_remaining, download_pages_parallel.
  repeat first [apply emits_sequential | apply emits_fetch | emits_step].
Qed.

Lemma emits_pdf_for_person id tipo :
  emits P (download_pdf_for_person remote id tipo).
Proof.
  unfold download_pdf_for_person, download_pdf.
  repeat first [emits_step | apply emits_request, P_pdf].
Qed.

Lemma emits_pdfs_sequential results :
  ∀ t, emits P (download_pdfs_sequential remote results t).
Proof.
  induction results as [|r rest IH]; intros t; simpl.
  - apply emits_ret.
  - repeat first [apply IH | apply emits_pdf_for_person | emits_step].
Qed.

Lemma emits_pdfs results :
  emits P (_download_pdfs_for_results remote schedule self results).
Proof.
  unfold _download_pdfs_for_results, download_pdfs_parallel,
    download_pdf_task.
  repeat first [apply emits_pdfs_sequential | apply emits_pdf_for_person
               | emits_step].
Qed.

End Emits.

(** ** The crawl controller *)

Section Controller.

Variable remote : list event → call → result response.
Variable schedule : ∀ A : Type, list A → list A.
Variable self : BNMPScraper.

Lemma bind_ext {A B} (m : M A) (k k' : A → M B) w :
  (∀ a w', k a w' = k' a w') → bind m k w = bind m k' w.
Proof. intros Hk. unfold bind. by destruct (m w) as [[a|e] w1]. Qed.

Lemma uf_name_of_dict estado uf :
  Py.get estado "id" JNull = Ok uf →
  ∃ name, uf_name_of estado uf = Ok name.
Proof. destruct estado; try done. intros _. by eexists. Qed.

Lemma scrape_estados_skip start_uf start_mun skip pre rest w :
  Forall (before_checkpoint start_uf) pre →
  scrape_estados remote schedule self start_uf start_mun skip (pre ++ rest)
    false w
  = scrape_estados remote schedule self start_uf start_mun skip rest false w.
Proof.
  induction 1 as [|estado pre (uf & Hid & Hne) _ IH]; [done|].
  simpl. unfold bind at 1, lift at 1. rewrite Hid.
  destruct (uf_name_of_dict _ _ Hid) as [name Hname].
  unfold bind at 1, lift at 1. rewrite Hname, Hne. simpl. apply IH.
Qed.

Lemma scrape_estados_reach start_uf start_mun skip estado rest started uf name w :
  Py.get estado "id" JNull = Ok uf →
  uf_name_of estado uf = Ok name →
  started = true ∨ Py.eq_opt_int uf start_uf = true →
  scrape_estados remote schedule self start_uf start_mun skip (estado :: rest)
    started w
  = bind (scrape_estado remote schedule self start_uf start_mun skip uf name)
      (λ _, scrape_estados remote schedule self start_uf start_mun skip rest
              true) w.
Proof.
  intros Hid Hname Hreach. simpl. unfold bind at 1, lift at 1. rewrite Hid.
  unfold bind at 1, lift at 1. rewrite Hname.
  by destruct Hreach as [-> | ->]; rewrite ?andb_false_r.
Qed.

Lemma scrape_municipios_skip start_mun uf pre rest w :
  Forall (before_checkpoint start_mun) pre →
  scrape_municipios remote schedule self start_mun uf (pre ++ rest) false w
  = scrape_municipios remote schedule self start_mun uf rest false w.
Proof.
  induction 1 as [|municipio pre (id & Hid & Hne) _ IH]; [done|].
  simpl. unfold bind at 1, lift at 1. rewrite Hid, Hne. simpl. apply IH.
Qed.

Lemma scrape_municipios_started start_mun uf municipios :
  ∀ w,
    scrape_municipios remote schedule self start_mun uf municipios true w
    = scrape_municipios remote schedule self None uf municipios true w.
Proof.
  induction municipios as [|municipio rest IH]; intros w; [done|].
  simpl. apply bind_ext. intros id w1.
  apply bind_ext. intros results w2. apply bind_ext. intros _ w3. apply IH.
Qed.

(** In a state other than the checkpoint's the municipality checkpoint
    plays no part. *)
Lemma scrape_estado_later start_uf start_mun skip uf name w :
  Py.eq_opt_int uf start_uf = false →
  scrape_estado remote schedule self start_uf start_mun skip uf name w
  = scrape_estado remote schedule self start_uf None skip uf name w.
Proof.
  intros Hne. unfold scrape_estado. rewrite Hne.
  apply bind_ext. intros rs w1.
  destruct (skip && _); [done|].
  apply bind_ext. intros municipios w2. apply bind_ext. intros total w3.
  apply bind_ext. intros _ w4. apply bind_ext. intros items w5.
  rewrite orb_true_r. apply scrape_municipios_started.
Qed.

(** C8.  With the small-state skip enabled, a state whose state-level
    result count is below [max_results_per_combination] goes straight
    from its state-level results to the artifact download for them, and
    no call to list its municipalities, or any municipalities, is made
    while it is processed. *)
Theorem small_state_skips_municipios start_uf start_mun uf name w rs w1 :
  state_level_results remote schedule self uf w = (Ok rs, w1) →
  Z.of_nat (length rs) < max_results_per_combination self →
  scrape_estado remote schedule self start_uf start_mun true uf name w
  = bind (_download_pdfs_for_results remote schedule self rs) (λ _, ret tt) w1
  ∧ ∃ evs,
      trace (scrape_estado remote schedule self start_uf start_mun true
               uf name w).2 = trace w ++ evs
      ∧ Forall not_list_municipios evs.
Proof.
  intros Hrs Hsmall.
  assert (scrape_estado remote schedule self start_uf start_mun true uf name w
          = bind (_download_pdfs_for_results remote schedule self rs)
              (λ _, ret tt) w1) as Heq.
  { unfold scrape_estado, bind at 1. rewrite Hrs. simpl.
    by destruct (Z.ltb_spec (Z.of_nat (length rs))
                   (max_results_per_combination self)); [|lia]. }
  split; [done|]. rewrite Heq.
  assert (emits not_list_municipios
            (state_level_results remote schedule self uf)) as H1.
  { apply emits_try_except; [|intros; apply emits_ret].
    by apply emits_driver. }
  assert (emits not_list_municipios
            (bind (_download_pdfs_for_results remote schedule self rs)
               (λ _, ret tt))) as H2.
  { apply emits_bind; [|intros; apply emits_ret]. by apply emits_pdfs. }
  destruct (H1 w) as (evs1 & Ht1 & HP1). rewrite Hrs in Ht1. simpl in Ht1.
  destruct (H2 w1) as (evs2 & Ht2 & HP2).
  exists (evs1 ++ evs2). rewrite Ht2, Ht1, <- app_assoc. split; [done|].
  by apply Forall_app.
Qed.

Lemma state_level_results_total uf w :
  ∃ rs w1,
    state_level_results remote schedule self uf w = (Ok rs, w1)
    ∧ ∀ e w',
        download_filter_results remote schedule self uf JNull w = (Raise e, w') →
        rs = [] ∧ w1 = w'.
Proof.
  unfold state_level_results, try_except.
  destruct (download_filter_results remote schedule self uf JNull w)
    as [[rs|e] w1].
  - exists rs, w1. split; [done|]. by intros e w'.
  - exists [], w1. split; [done|]. by intros e' w' [= _ ->].
Qed.

Lemma get_municipios_fails uf w e :
  remote (trace w) (GetMunicipiosPorUf uf) = Raise e
  ∨ (∃ r, remote (trace w) (GetMunicipiosPorUf uf) = Ok r
          ∧ 400 ≤ status_code r < 600 ∧ e = HTTPError (status_code r)) →
  get_municipios remote uf w = (Raise e, log (Net (GetMunicipiosPorUf uf)) w).
Proof.
  unfold get_municipios, bind, get_municipios_por_uf, request.
  intros [-> | (r & -> & Hs & ->)]; [done|].
  unfold lift, raise_for_status.
  destruct (Z.leb_spec 400 (status_code r)); [|lia].
  destruct (Z.ltb_spec (status_code r) 600); [done|lia].
Qed.

(** C2 (amended).  A failure raised while the state-level results of a
    state are fetched is caught and the state goes on with zero results.
    A failure while the municipalities of the state are listed, the call
    raising or answering with a 4xx or 5xx status, is not caught: it
    leaves the crawl at that call and no later state is processed. *)
Theorem municipios_failure_ends_crawl start_uf start_mun skip estado rest
    started w uf rs w1 e :
  Py.get estado "id" JNull = Ok uf →
  started = true ∨ Py.eq_opt_int uf start_uf = true →
  state_level_results remote schedule self uf w = (Ok rs, w1) →
  skip && (Z.of_nat (length rs) <? max_results_per_combination self) = false →
  remote (trace w1) (GetMunicipiosPorUf uf) = Raise e
  ∨ (∃ r, remote (trace w1) (GetMunicipiosPorUf uf) = Ok r
          ∧ 400 ≤ status_code r < 600 ∧ e = HTTPError (status_code r)) →
  (∀ e' w',
     download_filter_results remote schedule self uf JNull w = (Raise e', w') →
     rs = [] ∧ w1 = w')
  ∧ scrape_estados remote schedule self start_uf start_mun skip
      (estado :: rest) started w
    = (Raise e, log (Net (GetMunicipiosPorUf uf)) w1).
Proof.
  intros Hid Hreach Hrs Hskip Hfail. split.
  - destruct (state_level_results_total uf w) as (rs' & w1' & Hrs' & Hcatch).
    rewrite Hrs in Hrs'. injection Hrs' as <- <-. done.
  - destruct (uf_name_of_dict _ _ Hid) as [name Hname].
    rewrite (scrape_estados_reach _ _ _ _ _ _ _ _ _ Hid Hname Hreach).
    unfold bind at 1, scrape_estado, bind at 1. rewrite Hrs, Hskip.
    unfold bind at 1. by rewrite (get_municipios_fails _ _ _ Hfail).
Qed.

End Controller.

Lemma small_state_skips_municipios_witness :
  scrape_estado portal_three_states in_order default_scraper None None true
    (JNum 4) (JStr "AC") empty_world
  = bind (_download_pdfs_for_results portal_three_states in_order
            default_scraper [record 101 1]) (λ _, ret tt) (after_state_page 4)
  ∧ ∃ evs,
      trace (scrape_estado portal_three_states in_order default_scraper
               None None true (JNum 4) (JStr "AC") empty_world).2
      = trace empty_world ++ evs
      ∧ Forall not_list_municipios evs.
Proof.
  apply (small_state_skips_municipios portal_three_states in_order
           default_scraper None None (JNum 4) (JStr "AC") empty_world
           [record 101 1] (after_state_page 4)).
  - vm_compute. reflexivity.
  - simpl. lia.
Defined.

Lemma municipios_failure_ends_crawl_witness :
  (∀ e' w',
     download_filter_results portal_no_municipios in_order default_scraper
       (JNum 4) JNull empty_world = (Raise e', w') →
     [record 101 1] = [] ∧ after_state_page 4 = w')
  ∧ scrape_estados portal_no_municipios in_order default_scraper None None
      false (place 4 "AC" :: [place 5 "AL"; place 6 "AM"]) true empty_world
    = (Raise (HTTPError 500),
       log (Net (GetMunicipiosPorUf (JNum 4))) (after_state_page 4)).
Proof.
  apply (municipios_failure_ends_crawl portal_no_municipios in_order
           default_scraper None None false (place 4 "AC")
           [place 5 "AL"; place 6 "AM"] true empty_world (JNum 4)
           [record 101 1] (after_state_page 4) (HTTPError 500)).
  - reflexivity.
  - left. reflexivity.
  - vm_compute. reflexivity.
  - reflexivity.
  - right.
    exists {| status_code := 500; json_body := None; content_type := None;
              content := "" |}.
    split; [reflexivity|]. split; [simpl; lia|reflexivity].
Defined.

(** C2, refuted as stated: the municipality list of the first state
    answers 500; the crawl raises there and the two states after it are
    never queried. *)
Lemma municipios_failure_aborts_run :
  (scrape_all portal_no_municipios in_order default_scraper None None false
     empty_world).1 = Raise (HTTPError 500)
  ∧ trace (scrape_all portal_no_municipios in_order default_scraper None None
             false empty_world).2
    = [Net GetEstados; search (JNum 4) JNull 0 30;
       Net (GetMunicipiosPorUf (JNum 4))].
Proof. vm_compute. done. Qed.

(** ** The artifact downloader *)

Section Artifacts.

Variable remote : list event → call → result response.

(** A record with both identifiers whose artifact file is on disk. *)
Variables (result : json) (id tipo : json) (w : world).
Hypothesis has_id : Py.get result "id" JNull = Ok id.
Hypothesis has_tipo : Py.get result "idTipoPeca" JNull = Ok tipo.
Hypothesis id_truthy : Py.truthy id = true.
Hypothesis tipo_given : is_none tipo = false.
Hypothesis on_disk : is_Some (pdf_dir w !! pdf_filename id tipo).

Lemma download_pdf_for_person_on_disk :
  download_pdf_for_person remote id tipo w = (Ok true, w).
Proof.
  unfold download_pdf_for_person, bind, pdf_exists.
  by rewrite bool_decide_true.
Qed.

(** The task of the worker pool reports a skip, without a network call. *)
Lemma download_pdf_task_on_disk :
  download_pdf_task remote result w = (Ok (false, true, false), w).
Proof.
  unfold download_pdf_task, bind, lift, pdf_exists.
  rewrite has_id, has_tipo, id_truthy, tipo_given. simpl.
  by rewrite bool_decide_true.
Qed.

(** The sequential loop counts a download, without a network call. *)
Lemma download_pdfs_sequential_on_disk rest t :
  download_pdfs_sequential remote (result :: rest) t w
  = download_pdfs_sequential remote rest (count_downloaded t) w.
Proof.
  simpl. unfold bind at 1, lift at 1. rewrite has_id.
  unfold bind at 1, lift at 1. rewrite has_tipo, id_truthy, tipo_given.
  simpl. unfold bind at 1. by rewrite download_pdf_for_person_on_disk.
Qed.

End Artifacts.

(** C9, at the failing input: the artifact of the only record is on disk.
    Neither mode makes a network call or changes the world; the worker
    pool tallies the record as skipped, the sequential loop tallies it as
    downloaded. *)
Theorem artifact_on_disk_tallied_by_mode :
  _download_pdfs_for_results portal_three_states in_order pooled_scraper
    [record 101 1] world_with_pdf
  = (Ok {| downloaded := 0; skipped := 1; errors := 0 |}, world_with_pdf)
  ∧ _download_pdfs_for_results portal_three_states in_order default_scraper
      [record 101 1] world_with_pdf
    = (Ok {| downloaded := 1; skipped := 0; errors := 0 |}, world_with_pdf).
Proof. split; vm_compute; reflexivity. Qed.

(** ** Runs on the concrete portals *)

(** The crawl resumed at state 5, municipality 12: state 4 and
    municipality 11 of state 5 are never queried, state 6 is crawled from
    its first municipality. *)
Example crawl_resumed_at_5_12 :
  trace (scrape_all portal_three_states in_order default_scraper
           (Some 5) (Some 12) false empty_world).2
  = [Net GetEstados;
     search (JNum 5) JNull 0 30;
     Net (GetMunicipiosPorUf (JNum 5));
     search (JNum 5) (JNum 12) 0 30;
     Net (DownloadPdf (JNum 101) (JNum 1));
     search (JNum 5) (JNum 13) 0 30;
     search (JNum 6) JNull 0 30;
     Net (GetMunicipiosPorUf (JNum 6));
     search (JNum 6) (JNum 11) 0 30;
     search (JNum 6) (JNum 12) 0 30;
     search (JNum 6) (JNum 13) 0 30].
Proof. vm_compute. reflexivity. Qed.

(** Seven pages of five items fetched by the pool, after a page 0 asked
    with the configured size 30. *)
Example pooled_pages_of_five :
  trace (download_filter_results (portal_pages 5 7 31) in_order pooled_scraper
           (JNum 1) JNull empty_world).2
  = [search (JNum 1) JNull 0 30; search (JNum 1) JNull 1 5;
     search (JNum 1) JNull 2 5; search (JNum 1) JNull 3 5;
     search (JNum 1) JNull 4 5; search (JNum 1) JNull 5 5;
     search (JNum 1) JNull 6 5].
Proof. vm_compute. reflexivity. Qed.

(** C3, refuted as stated: the first invocation settles page 0 on size 10
    and persists it under the size-10 key.  With the store so populated
    the same invocation again does not find the file: it probes the
    size-30 key only and makes two more requests. *)
Lemma downgraded_page_is_requested_again :
  let first := _download_single_page portal_floor default_scraper (JNum 1)
                 JNull 0 30 "uf_1" empty_world in
  let second := _download_single_page portal_floor default_scraper (JNum 1)
                  JNull 0 30 "uf_1" first.2 in
  first.1 = Ok (0, page_of five_records 1 5, None)
  ∧ json_dir first.2 !! "uf_1_page_0_size_10.json"
    = Some (JsonText (page_of five_records 1 5))
  ∧ first.2 = downgraded_world
  ∧ trace second.2
    = trace first.2
      ++ [search (JNum 1) JNull 0 30; search (JNum 1) JNull 0 10].
Proof. vm_compute. done. Qed.

(** C5, refuted as stated: page 0 comes back with thirty items, the
    portal rejects size 30 on page 1, and page 1 is then requested with
    size 10, which is not the effective page size of page 0. *)
Lemma later_page_requested_with_size_10 :
  let run := download_filter_results portal_floor_after_first in_order
               default_scraper (JNum 1) JNull empty_world in
  json_dir run.2 !! "uf_1_page_0_size_30.json"
  = Some (JsonText (page_of (replicate 30 (record 101 1)) 2 40))
  ∧ Py.len (JArr (replicate 30 (record 101 1))) = Ok 30
  ∧ trace run.2
    = [search (JNum 1) JNull 0 30; search (JNum 1) JNull 1 30;
       search (JNum 1) JNull 1 10].
Proof. vm_compute. done. Qed.

(** * Further properties of the scraper *)

Section FetcherMore.

Variable remote : list event → call → result response.
Variable self : BNMPScraper.

Lemma request_page_outcome uf mun page size pre w :
  ∃ data err w',
    request_page remote uf mun page size pre w = (Ok (page, data, err), w')
    ∧ pdf_dir w' = pdf_dir w
    ∧ (err ≠ None → data = JNull)
    ∧ (∀ fn, fn ≠ page_filename pre page size →
             fn ≠ page_filename pre page 10 →
             json_dir w' !! fn = json_dir w !! fn).
Proof.
  unfold request_page, try_except, bind, pesquisa_pecas_filter, request, lift,
    response_json, save_json, ret.
  destruct (remote (trace w) _) as [r1|e1]; simpl; [|by eexists _, _, _].
  destruct (status_code r1 =? 200); simpl.
  { destruct (json_body r1); simpl; eexists _, _, _;
      (split; [done|]; split; [done|]; split; [done|]); [|done].
    intros fn Hfn _. simpl. by rewrite lookup_insert_ne. }
  destruct ((status_code r1 =? 400) && (10 <? size)); simpl;
    [|by eexists _, _, _].
  destruct (remote _ _) as [r2|e2]; simpl; [|by eexists _, _, _].
  destruct (status_code r2 =? 200); simpl; [|by eexists _, _, _].
  destruct (json_body r2); simpl; eexists _, _, _;
    (split; [done|]; split; [done|]; split; [done|]); [|done].
  intros fn _ Hfn. simpl. by rewrite lookup_insert_ne.
Qed.

(** The page fetcher never raises: it hands back the page number it was
    given with either the page or an error, and an error comes with no
    data.  It leaves the artifact directory alone, and the only page
    files it can write are the one keyed by the size it was called with
    and the size-10 one of the downgrade retry. *)
Theorem fetcher_reports_errors_in_band uf mun page size pre w :
  ∃ data err w',
    _download_single_page remote self uf mun page size pre w
    = (Ok (page, data, err), w')
    ∧ pdf_dir w' = pdf_dir w
    ∧ (err ≠ None → data = JNull)
    ∧ (∀ fn, fn ≠ page_filename pre page size →
             fn ≠ page_filename pre page 10 →
             json_dir w' !! fn = json_dir w !! fn).
Proof.
  destruct (cached_file self w pre page size) as [[fn f]|] eqn:Hc.
  - rewrite (fetch_cached _ _ _ _ _ _ _ _ _ _ Hc).
    destruct f; simpl; by eexists _, _, _.
  - apply cached_file_None in Hc. rewrite fetch_uncached by done.
    apply request_page_outcome.
Qed.

(** A page that was fetched with a 200 to its first request is on disk
    under the key the fetcher probes first: the same call again returns
    the same page and asks the portal nothing. *)
Theorem fetched_page_is_served_from_disk uf mun page size pre w r d :
  cache_miss self w pre page size →
  remote (trace w) (PesquisaPecasFilter uf mun page size) = Ok r →
  status_code r = 200 →
  json_body r = Some d →
  ∃ w1 w2,
    _download_single_page remote self uf mun page size pre w
    = (Ok (page, d, None), w1)
    ∧ _download_single_page remote self uf mun page size pre w1
      = (Ok (page, d, None), w2)
    ∧ net_calls (trace w2) = net_calls (trace w1)
    ∧ json_dir w2 = json_dir w1.
Proof.
  intros Hmiss Hr Hs Hd.
  rewrite fetch_uncached by done.
  rewrite (request_page_ok _ _ _ _ _ _ _ _ _ Hr Hs Hd).
  set (w1 := with_json (page_filename pre page size) d
               (log (search uf mun page size) w)).
  assert (cached_file self w1 pre page size
          = Some (page_filename pre page size, JsonText d)) as Hc.
  { unfold cached_file, w1. simpl. by rewrite lookup_insert_eq. }
  exists w1, (log (ReadJson (page_filename pre page size)) w1).
  split; [done|]. rewrite (fetch_cached _ _ _ _ _ _ _ _ _ _ Hc).
  split; [done|]. split; [|done].
  simpl. unfold net_calls. rewrite filter_app. simpl. by rewrite app_nil_r.
Qed.

End FetcherMore.

Lemma fetched_page_is_served_from_disk_witness :
  ∃ w1 w2,
    _download_single_page portal_five default_scraper (JNum 1) JNull 0 30
      "uf_1" empty_world
    = (Ok (0, page_of five_records 1 5, None), w1)
    ∧ _download_single_page portal_five default_scraper (JNum 1) JNull 0 30
        "uf_1" w1
      = (Ok (0, page_of five_records 1 5, None), w2)
    ∧ net_calls (trace w2) = net_calls (trace w1)
    ∧ json_dir w2 = json_dir w1.
Proof.
  apply (fetched_page_is_served_from_disk portal_five default_scraper
           (JNum 1) JNull 0 30 "uf_1" empty_world
           {| status_code := 200; json_body := Some (page_of five_records 1 5);
              content_type := None; content := "" |}).
  - split; reflexivity.
  - reflexivity.
  - reflexivity.
  - reflexivity.
Defined.

(** ** A scope that is already on disk *)

Section Offline.

Variable remote : list event → call → result response.
Variable schedule : ∀ A : Type, list A → list A.
Variable self : BNMPScraper.
Hypothesis schedule_fair : ∀ (A : Type) (tasks : list A), schedule A tasks ≡ₚ tasks.

Lemma offline_refl w : offline w w.
Proof. by repeat split. Qed.

Lemma offline_read fn w w' : offline w w' → offline w (log (ReadJson fn) w').
Proof.
  intros (Hj & Hp & Hn). repeat split; simpl; try done.
  unfold net_calls. rewrite filter_app. simpl. by rewrite app_nil_r.
Qed.

Lemma fetch_offline uf mun page size pre w0 w :
  offline w0 w →
  cached_file self w0 pre page size ≠ None →
  ∃ r w',
    _download_single_page remote self uf mun page size pre w = (Ok r, w')
    ∧ offline w0 w'.
Proof.
  intros Hoff Hc.
  assert (cached_file self w pre page size = cached_file self w0 pre page size)
    as Hsame.
  { unfold cached_file. destruct Hoff as (-> & _). done. }
  destruct (cached_file self w0 pre page size) as [[fn f]|] eqn:E; [|done].
  rewrite (fetch_cached _ _ _ _ _ _ _ _ _ _ Hsame).
  eexists _, _. split; [done|]. by apply offline_read.
Qed.

Lemma sequential_offline uf mun size pre w0 pages :
  (∀ page, page ∈ pages → cached_file self w0 pre page size ≠ None) →
  ∀ acc w,
    offline w0 w →
    offline w0
      (download_pages_sequential remote self uf mun size pre pages acc w).2.
Proof.
  induction pages as [|page rest IH]; intros Hall acc w Hoff; simpl; [done|].
  destruct (max_results_per_combination self <=? Z.of_nat (length acc));
    [done|].
  destruct (fetch_offline uf mun page size pre w0 w Hoff) as (r & w1 & Hr & H1).
  { apply Hall. by left. }
  unfold bind at 1. rewrite Hr. destruct r as [[p data] err].
  assert (∀ acc', offline w0
            (download_pages_sequential remote self uf mun size pre rest
               acc' w1).2) as Hgo.
  { intros acc'. apply IH; [|done]. intros q Hq. apply Hall. by right. }
  destruct err; [done|]. destruct (Py.truthy data); [|apply Hgo].
  unfold bind, lift. destruct (page_content data); simpl; [apply Hgo|done].
Qed.

Lemma mapM_offline uf mun size pre w0 pages :
  (∀ page, page ∈ pages → cached_file self w0 pre page size ≠ None) →
  ∀ w,
    offline w0 w →
    offline w0
      (mapM (λ page, _download_single_page remote self uf mun page size pre)
         pages w).2.
Proof.
  induction pages as [|page rest IH]; intros Hall w Hoff; simpl; [done|].
  destruct (fetch_offline uf mun page size pre w0 w Hoff) as (r & w1 & Hr & H1).
  { apply Hall. by left. }
  unfold bind at 1. rewrite Hr.
  assert (offline w0
            (mapM (λ page, _download_single_page remote self uf mun page
                             size pre) rest w1).2) as Hrest.
  { apply IH; [|done]. intros q Hq. apply Hall. by right. }
  unfold bind. by destruct (mapM _ rest w1) as [[rs|e] w2].
Qed.

Lemma parallel_offline uf mun size pre w0 pages acc w :
  (∀ page, page ∈ pages → cached_file self w0 pre page size ≠ None) →
  offline w0 w →
  offline w0
    (download_pages_parallel remote schedule self uf mun size pre pages acc w).2.
Proof.
  intros Hall Hoff. unfold download_pages_parallel, bind at 1.
  pose proof (mapM_offline uf mun size pre w0 (schedule Z pages)) as Hm.
  specialize (Hm (λ page Hin, Hall page
                     (proj1 (elem_of_Permutation_proper _ _ _
                               (schedule_fair Z pages)) Hin)) w Hoff).
  destruct (mapM _ (schedule Z pages) w) as [[rs|e] w1]; simpl in *; [|done].
  unfold bind, lift. destruct (collect_pages rs ∅) as [found|e]; simpl; [|done].
  by destruct (extend_all (sorted_items found) acc).
Qed.

(** A scope whose pages are all on disk is read back without a network
    call and without a write: page 0 under the key of the configured
    size, the later pages under the key of the number of items of page 0
    or of the configured size.  Stated for a page 0 that reports fewer
    elements than [max_results_per_combination]. *)
Theorem stored_scope_is_read_offline uf mun w kvs items total reported :
  json_dir w !! page_filename (filename_prefix_of uf mun) 0 (page_size self)
  = Some (JsonText (JObj kvs)) →
  kvs ≠ [] →
  Py.get (JObj kvs) "totalPages" (JNum 1) = Ok (JNum total) →
  Py.get (JObj kvs) "totalElements" (JNum 0) = Ok (JNum reported) →
  reported < max_results_per_combination self →
  Py.get (JObj kvs) "content" (JArr []) = Ok (JArr items) →
  (∀ page, 1 ≤ page < total →
     cached_file self w (filename_prefix_of uf mun) page
       (Z.of_nat (length items)) ≠ None) →
  offline w (download_filter_results remote schedule self uf mun w).2.
Proof.
  intros Hfile Hne Htp Hte Hsmall Hcontent Hall.
  assert (cached_file self w (filename_prefix_of uf mun) 0 (page_size self)
          = Some (page_filename (filename_prefix_of uf mun) 0 (page_size self),
                  JsonText (JObj kvs))) as Hc.
  { unfold cached_file. by rewrite Hfile. }
  set (w1 := log (ReadJson (page_filename (filename_prefix_of uf mun) 0
                              (page_size self))) w).
  assert (offline w w1) as Hoff by apply offline_read, offline_refl.
  rewrite (download_filter_results_after_first remote schedule self uf mun w
             (JObj kvs) w1);
    [|by rewrite (fetch_cached _ _ _ _ _ _ _ _ _ _ Hc)|by destruct kvs].
  unfold download_remaining, bind, lift, ret.
  rewrite Htp, Hte, Hcontent. simpl.
  destruct (Z.leb_spec (max_results_per_combination self) reported); [lia|].
  change (Py.as_int (JNum total)) with (Ok (A:=Z) total). cbv iota.
  destruct (1 <? total); [|done].
  assert (∀ page, page ∈ pages_to_download total →
            cached_file self w (filename_prefix_of uf mun) page
              (Z.of_nat (length items)) ≠ None) as Hpages.
  { intros page Hin. apply Hall. unfold pages_to_download in Hin.
    apply elem_of_seqZ in Hin. lia. }
  destruct ((1 <? max_workers self) && _).
  - by apply parallel_offline.
  - by apply sequential_offline.
Qed.

End Offline.

Lemma stored_scope_is_read_offline_witness :
  offline two_pages_stored
    (download_filter_results portal_five in_order default_scraper (JNum 1)
       JNull two_pages_stored).2.
Proof.
  apply (stored_scope_is_read_offline portal_five in_order default_scraper
           in_order_fair (JNum 1) JNull two_pages_stored
           [("content", JArr five_records); ("totalPages", JNum 2);
            ("totalElements", JNum 7)] five_records 2 7).
  - vm_compute. reflexivity.
  - discriminate.
  - reflexivity.
  - reflexivity.
  - simpl. lia.
  - reflexivity.
  - intros page Hpage. assert (page = 1) as -> by lia.
    vm_compute. discriminate.
Defined.

(** ** What each component asks the portal *)

Ltac emits_go :=
  first
    [ apply emits_ret | apply emits_lift | apply emits_save_json
    | apply emits_save_pdf | apply emits_json_exists | apply emits_pdf_exists
    | apply emits_bind; [|intros ?]
    | apply emits_try_except; [|intros ?]
    | apply emits_submit
    | apply emits_mapM; intros ?
    | match goal with
      | |- emits _ (if ?b then _ else _) => destruct b
      | |- emits _ (match ?x with _ => _ end) => destruct x
      end ].

Section Scoped.

Variable remote : list event → call → result response.
Variable schedule : ∀ A : Type, list A → list A.
Variable self : BNMPScraper.

Lemma emits_weaken {A} (P Q : event → Prop) (m : M A) :
  (∀ e, P e → Q e) → emits P m → emits Q m.
Proof.
  intros HPQ Hm w. destruct (Hm w) as (evs & Ht & HP).
  exists evs. split; [done|]. by eapply Forall_impl.
Qed.

Lemma emits_fetch_scope uf mun page size pre :
  emits (scope_event uf mun)
    (_download_single_page remote self uf mun page size pre).
Proof.
  intros w.
  destruct (fetch_trace remote self uf mun page size pre w)
    as (r & evs & _ & Ht & Hev).
  exists evs. split; [done|].
  destruct Hev as [fn| |Hsize].
  - constructor; [|constructor]. left. by exists fn.
  - constructor; [|constructor]. right. by exists page, size.
  - constructor; [|constructor; [|constructor]]; right.
    + by exists page, size.
    + by exists page, 10.
Qed.

Lemma emits_sequential_scope uf mun size pre pages :
  ∀ acc, emits (scope_event uf mun)
           (download_pages_sequential remote self uf mun size pre pages acc).
Proof.
  induction pages as [|page rest IH]; intros acc; simpl.
  - apply emits_ret.
  - repeat first [apply IH | apply emits_fetch_scope | emits_go].
Qed.

Lemma emits_driver_scope uf mun :
  emits (scope_event uf mun)
    (download_filter_results remote schedule self uf mun).
Proof.
  unfold download_filter_results, download_remaining, download_pages_parallel.
  repeat first [apply emits_sequential_scope | apply emits_fetch_scope
               | emits_go].
Qed.

Lemma emits_pdfs_artifact results :
  emits artifact_event (_download_pdfs_for_results remote schedule self results).
Proof. apply emits_pdfs. intros id tipo. by exists id, tipo. Qed.

(** The pagination driver on a scope reads page files and searches that
    scope, and nothing else: it never lists states or municipalities,
    never downloads an artifact and never searches another scope. *)
Theorem driver_only_searches_its_scope uf mun w :
  ∃ evs,
    trace (download_filter_results remote schedule self uf mun w).2
    = trace w ++ evs
    ∧ Forall (scope_event uf mun) evs.
Proof. apply emits_driver_scope. Qed.

(** The artifact downloader only downloads artifacts: it makes no search,
    lists nothing and reads no page file. *)
Theorem downloader_only_downloads_artifacts results w :
  ∃ evs,
    trace (_download_pdfs_for_results remote schedule self results w).2
    = trace w ++ evs
    ∧ Forall artifact_event evs.
Proof. apply emits_pdfs_artifact. Qed.

Lemma emits_municipios_state start_mun uf municipios :
  ∀ started,
    emits (state_event uf)
      (scrape_municipios remote schedule self start_mun uf municipios started).
Proof.
  induction municipios as [|municipio rest IH]; intros started; simpl.
  - apply emits_ret.
  - apply emits_bind; [apply emits_lift|]. intros municipio_id.
    destruct (negb started && _); [apply IH|].
    apply emits_bind.
    { eapply emits_weaken; [|apply emits_driver_scope].
      intros e [[fn ->]|(page & size & ->)]; unfold state_event; eauto 10. }
    intros results. apply emits_bind; [|intros; apply IH].
    eapply emits_weaken; [|apply emits_pdfs_artifact].
    unfold state_event. eauto.
Qed.

Lemma emits_estado_state start_uf start_mun skip uf name :
  emits (state_event uf)
    (scrape_estado remote schedule self start_uf start_mun skip uf name).
Proof.
  unfold scrape_estado, state_level_results, get_municipios,
    get_municipios_por_uf.
  apply emits_bind.
  { apply emits_try_except; [|intros; apply emits_ret].
    eapply emits_weaken; [|apply emits_driver_scope].
    intros e [[fn ->]|(page & size & ->)]; unfold state_event; eauto 10. }
  intros test_results. destruct (skip && _).
  - apply emits_bind; [|intros; apply emits_ret].
    eapply emits_weaken; [|apply emits_pdfs_artifact].
    unfold state_event. eauto.
  - repeat first [apply emits_municipios_state | emits_go].
    apply emits_request. unfold state_event. eauto.
Qed.

(** While a state is crawled every search and the municipality listing
    are for that state: the events are reads of page files, searches in
    the state, the list of its municipalities and artifact downloads. *)
Theorem state_crawl_stays_in_state start_uf start_mun skip uf name w :
  ∃ evs,
    trace (scrape_estado remote schedule self start_uf start_mun skip
             uf name w).2 = trace w ++ evs
    ∧ Forall (state_event uf) evs.
Proof. apply emits_estado_state. Qed.

Lemma get_estados_fails w e :
  remote (trace w) GetEstados = Raise e
  ∨ (∃ r, remote (trace w) GetEstados = Ok r
          ∧ 400 ≤ status_code r < 600 ∧ e = HTTPError (status_code r)) →
  get_estados remote w = (Raise e, log (Net GetEstados) w).
Proof.
  unfold get_estados, bind, client_get_estados, request.
  intros [-> | (r & -> & Hs & ->)]; [done|].
  unfold lift, raise_for_status.
  destruct (Z.leb_spec 400 (status_code r)); [|lia].
  destruct (Z.ltb_spec (status_code r) 600); [done|lia].
Qed.

Lemma get_estados_ok w r estados :
  remote (trace w) GetEstados = Ok r →
  ¬ 400 ≤ status_code r < 600 →
  json_body r = Some (JArr estados) →
  get_estados remote w = (Ok (JArr estados), log (Net GetEstados) w).
Proof.
  intros Hr Hs Hb.
  unfold get_estados, bind, client_get_estados, request. rewrite Hr.
  unfold lift, raise_for_status, response_json. rewrite Hb.
  destruct (Z.leb_spec 400 (status_code r));
    destruct (Z.ltb_spec (status_code r) 600); simpl; try done; lia.
Qed.

(** When the list of states cannot be had, the call raising or answering
    with a 4xx or 5xx status, the crawl raises at once: that one call is
    all it did, and nothing is written. *)
Theorem crawl_needs_the_state_list start_uf start_mun skip w e :
  remote (trace w) GetEstados = Raise e
  ∨ (∃ r, remote (trace w) GetEstados = Ok r
          ∧ 400 ≤ status_code r < 600 ∧ e = HTTPError (status_code r)) →
  scrape_all remote schedule self start_uf start_mun skip w
  = (Raise e, log (Net GetEstados) w).
Proof.
  intros Hfail. unfold scrape_all, bind at 1.
  by rewrite (get_estados_fails _ _ Hfail).
Qed.

(** A checkpoint that names a state the portal does not list makes the
    crawl a silent no-op: the state list is fetched and written to
    [metadata/estados.json], every state is passed over, and the crawl
    ends without an error. *)
Theorem unknown_start_state_crawls_nothing start start_mun skip w r estados :
  remote (trace w) GetEstados = Ok r →
  ¬ 400 ≤ status_code r < 600 →
  json_body r = Some (JArr estados) →
  Forall (before_checkpoint (Some start)) estados →
  scrape_all remote schedule self (Some start) start_mun skip w
  = (Ok tt,
     with_json "metadata/estados.json"
       (JObj [("estados", JArr estados);
              ("total", JNum (Z.of_nat (length estados)))])
       (log (Net GetEstados) w)).
Proof.
  intros Hr Hs Hb Hall. unfold scrape_all, bind at 1.
  rewrite (get_estados_ok _ _ _ Hr Hs Hb).
  assert (∀ w', scrape_estados remote schedule self (Some start) start_mun
                  skip estados false w' = (Ok tt, w')) as Hskip.
  { intros w'. rewrite <- (app_nil_r estados).
    by rewrite scrape_estados_skip. }
  unfold bind, lift, save_json. simpl. apply Hskip.
Qed.

End Scoped.

Lemma crawl_needs_the_state_list_witness :
  scrape_all (portal_status 503) in_order default_scraper None None true
    empty_world
  = (Raise (HTTPError 503), log (Net GetEstados) empty_world).
Proof.
  apply (crawl_needs_the_state_list (portal_status 503) in_order
           default_scraper None None true empty_world (HTTPError 503)).
  right.
  exists {| status_code := 503; json_body := None; content_type := None;
            content := "" |}.
  split; [reflexivity|]. split; [simpl; lia|reflexivity].
Defined.

Lemma unknown_start_state_crawls_nothing_witness :
  scrape_all portal_three_states in_order default_scraper (Some 99) (Some 12)
    true empty_world
  = (Ok tt,
     with_json "metadata/estados.json"
       (JObj [("estados", JArr [place 4 "AC"; place 5 "AL"; place 6 "AM"]);
              ("total", JNum 3)])
       (log (Net GetEstados) empty_world)).
Proof.
  apply (unknown_start_state_crawls_nothing portal_three_states in_order
           default_scraper 99 (Some 12) true empty_world
           {| status_code := 200;
              json_body := Some (JArr [place 4 "AC"; place 5 "AL";
                                       place 6 "AM"]);
              content_type := None; content := "" |}
           [place 4 "AC"; place 5 "AL"; place 6 "AM"]).
  - reflexivity.
  - simpl. lia.
  - reflexivity.
  - repeat constructor.
    + exists (JNum 4). split; reflexivity.
    + exists (JNum 5). split; reflexivity.
    + exists (JNum 6). split; reflexivity.
Defined.

(** ** The artifact downloader *)

Section ArtifactsMore.

Variable remote : list event → call → result response.
Variable schedule : ∀ A : Type, list A → list A.
Variable self : BNMPScraper.
Hypothesis schedule_fair : ∀ (A : Type) (tasks : list A), schedule A tasks ≡ₚ tasks.

Lemma pdf_for_person_outcome id tipo w :
  ∃ b w',
    download_pdf_for_person remote id tipo w = (Ok b, w')
    ∧ json_dir w' = json_dir w
    ∧ (b = true → is_Some (pdf_dir w' !! pdf_filename id tipo))
    ∧ (b = false → pdf_dir w' = pdf_dir w)
    ∧ (∀ fn, fn ≠ pdf_filename id tipo → pdf_dir w' !! fn = pdf_dir w !! fn).
Proof.
  unfold download_pdf_for_person, bind at 1, pdf_exists.
  destruct (bool_decide (is_Some (pdf_dir w !! pdf_filename id tipo))) eqn:E.
  { apply bool_decide_eq_true in E. by eexists _, _. }
  unfold try_except, bind, download_pdf, request, save_pdf, ret.
  destruct (remote (trace w) _) as [r|e]; simpl; [|by eexists _, _].
  destruct (status_code r =? 200); [|by eexists _, _].
  destruct (looks_like_pdf r); [|by eexists _, _].
  eexists _, _. split; [done|]. simpl. split; [done|].
  split; [intros _; by rewrite lookup_insert_eq|].
  split; [done|]. intros fn Hfn. by rewrite lookup_insert_ne.
Qed.

(** [download_pdf_for_person] never raises, and when it answers [True]
    the artifact file is on disk.  The artifact file of the record is the
    only file it can write: no other artifact file and no page file is
    touched. *)
Theorem artifact_download_outcome id tipo w :
  ∃ b w',
    download_pdf_for_person remote id tipo w = (Ok b, w')
    ∧ json_dir w' = json_dir w
    ∧ (b = true → is_Some (pdf_dir w' !! pdf_filename id tipo))
    ∧ (∀ fn, fn ≠ pdf_filename id tipo → pdf_dir w' !! fn = pdf_dir w !! fn).
Proof.
  destruct (pdf_for_person_outcome id tipo w)
    as (b & w' & Hrun & Hjson & Hon & _ & Hother).
  by exists b, w'.
Qed.

(** Once [download_pdf_for_person] has answered [True] for an artifact,
    asking for it again answers [True] and does nothing at all: no
    network call, no write. *)
Theorem artifact_download_is_idempotent id tipo w w1 :
  download_pdf_for_person remote id tipo w = (Ok true, w1) →
  download_pdf_for_person remote id tipo w1 = (Ok true, w1).
Proof.
  intros Hfirst.
  destruct (pdf_for_person_outcome id tipo w) as (b & w' & Hrun & _ & Hon & _).
  rewrite Hfirst in Hrun. injection Hrun as <- <-.
  apply download_pdf_for_person_on_disk. by apply Hon.
Qed.

Lemma task_one_flag result w :
  is_dict result →
  ∃ flags w',
    download_pdf_task remote result w = (Ok flags, w') ∧ one_flag flags.
Proof.
  intros [kvs ->]. unfold download_pdf_task, bind, lift, pdf_exists. simpl.
  destruct (negb _ || _); [eexists _, _; split; [done|]; by right; right|].
  destruct (bool_decide _);
    [eexists _, _; split; [done|]; by right; left|].
  destruct (pdf_for_person_outcome
              (default JNull (Py.assoc "id" kvs))
              (default JNull (Py.assoc "idTipoPeca" kvs)) w)
    as (b & w' & -> & _).
  destruct b; eexists _, _; (split; [done|]); [by left|by right; right].
Qed.

Lemma tally_futures_total done :
  Forall (λ f, ∃ flags, f = Ok flags ∧ one_flag flags) done →
  ∀ t, ∃ t',
    tally_futures done t = Ok t'
    ∧ tally_total t' = tally_total t + Z.of_nat (length done).
Proof.
  induction 1 as [|f done (flags & -> & Hflag) _ IH]; intros t; simpl.
  { exists t. split; [done|]. lia. }
  destruct Hflag as [-> | [-> | ->]];
    (edestruct IH as (t' & -> & Ht'); exists t'; split; [done|];
     rewrite Ht'; unfold tally_total; simpl; lia).
Qed.

Lemma submitted_tasks_flags results :
  Forall is_dict results →
  ∀ w, ∃ done w',
    mapM (λ result, submit (download_pdf_task remote result)) results w
    = (Ok done, w')
    ∧ length done = length results
    ∧ Forall (λ f, ∃ flags, f = Ok flags ∧ one_flag flags) done.
Proof.
  induction 1 as [|result rest Hd _ IH]; intros w; simpl.
  { by exists [], w. }
  destruct (task_one_flag result w Hd) as (flags & w1 & Hrun & Hflag).
  unfold bind at 1, submit at 1. rewrite Hrun.
  destruct (IH w1) as (done & w2 & Hrest & Hlen & Hall).
  unfold bind at 1. rewrite Hrest. simpl.
  eexists _, _. split; [done|]. simpl. split; [by rewrite Hlen|].
  constructor; [by exists flags|done].
Qed.

Lemma sequential_tally_total results :
  Forall is_dict results →
  ∀ t w, ∃ t' w',
    download_pdfs_sequential remote results t w = (Ok t', w')
    ∧ tally_total t' = tally_total t + Z.of_nat (length results).
Proof.
  induction 1 as [|result rest [kvs ->] _ IH]; intros t w.
  { exists t, w. split; [done|]. simpl. lia. }
  assert (∀ t1 w1, tally_total t1 = tally_total t + 1 →
            ∃ t' w',
              download_pdfs_sequential remote rest t1 w1 = (Ok t', w')
              ∧ tally_total t'
                = tally_total t + Z.of_nat (length (JObj kvs :: rest))) as Hgo.
  { intros t1 w1 Ht1. destruct (IH t1 w1) as (t' & w' & Hrun & Ht').
    exists t', w'. split; [done|]. rewrite Ht', Ht1. simpl length. lia. }
  assert (∀ t1 w1, tally_total t1 = tally_total t + 1 →
            ∃ t' w',
              download_pdfs_sequential remote rest t1 w1 = (Ok t', w')
              ∧ tally_total t'
                = tally_total t + Z.of_nat (length (JObj kvs :: rest)))
    as Hstep by (intros; by apply Hgo).
  assert (∀ t0, tally_total (count_error t0) = tally_total t0 + 1
                ∧ tally_total (count_skipped t0) = tally_total t0 + 1
                ∧ tally_total (count_downloaded t0) = tally_total t0 + 1)
    as Hcount by (intros; unfold tally_total; simpl; lia).
  cbn [download_pdfs_sequential]. unfold bind at 1 2, lift at 1 2.
  cbn [Py.get].
  destruct (negb _); [apply Hstep, Hcount|].
  destruct (is_none _); [apply Hstep, Hcount|].
  destruct (pdf_for_person_outcome
              (default JNull (Py.assoc "id" kvs))
              (default JNull (Py.assoc "idTipoPeca" kvs)) w)
    as (b & w1 & Hrun & _).
  unfold bind at 1. rewrite Hrun.
  destruct b; [apply Hstep, Hcount|].
  unfold bind, pdf_exists. destruct (bool_decide _); apply Hstep, Hcount.
Qed.

(** Every record is counted exactly once: when the results are all JSON
    objects, [_download_pdfs_for_results] does not raise and its three
    counts add up to the number of results, in the sequential and in the
    pooled mode alike.  One record's failure never stops the others. *)
Theorem every_record_is_counted_once results w :
  Forall is_dict results →
  ∃ t w',
    _download_pdfs_for_results remote schedule self results w = (Ok t, w')
    ∧ downloaded t + skipped t + errors t = Z.of_nat (length results).
Proof.
  intros Hd. unfold _download_pdfs_for_results.
  destruct results as [|result rest]; [by exists no_tally, w|].
  destruct (1 <? max_workers self).
  - unfold download_pdfs_parallel, bind.
    assert (Forall is_dict (schedule json (result :: rest))) as Hd'.
    { by rewrite schedule_fair. }
    destruct (submitted_tasks_flags _ Hd' w) as (done & w' & -> & Hlen & Hall).
    destruct (tally_futures_total done Hall no_tally) as (t & Ht & Htotal).
    exists t, w'. unfold lift. rewrite Ht. split; [done|].
    change (tally_total no_tally) with 0 in Htotal.
    unfold tally_total in Htotal. rewrite Htotal, Hlen.
    by rewrite schedule_fair.
  - destruct (sequential_tally_total _ Hd no_tally w) as (t & w' & -> & Ht).
    exists t, w'. split; [done|].
    change (tally_total no_tally) with 0 in Ht.
    unfold tally_total in Ht. lia.
Qed.

(** A record without a usable [id] (missing, [null], [0], empty) or
    without an [idTipoPeca] (missing or [null]) is counted as an error
    with no network call, by the pool task and by the sequential loop. *)
Theorem record_without_ids_is_an_error result id tipo rest t w :
  Py.get result "id" JNull = Ok id →
  Py.get result "idTipoPeca" JNull = Ok tipo →
  Py.truthy id = false ∨ is_none tipo = true →
  download_pdf_task remote result w = (Ok (false, false, true), w)
  ∧ download_pdfs_sequential remote (result :: rest) t w
    = download_pdfs_sequential remote rest (count_error t) w.
Proof.
  intros Hid Htipo Hbad. split.
  - unfold download_pdf_task, bind, lift. rewrite Hid, Htipo.
    by destruct Hbad as [-> | ->]; rewrite ?orb_true_r.
  - simpl. unfold bind at 1 2, lift at 1 2. rewrite Hid, Htipo.
    destruct Hbad as [-> | ->]; [done|]. by destruct (negb _).
Qed.

End ArtifactsMore.

Lemma artifact_download_is_idempotent_witness :
  download_pdf_for_person portal_three_states (JNum 101) (JNum 1) after_download
  = (Ok true, after_download).
Proof.
  apply (artifact_download_is_idempotent portal_three_states (JNum 101)
           (JNum 1) empty_world after_download).
  vm_compute. reflexivity.
Defined.

Lemma every_record_is_counted_once_witness :
  ∃ t w',
    _download_pdfs_for_results portal_three_states in_order pooled_scraper
      [record 101 1; JObj []; record 102 1] empty_world = (Ok t, w')
    ∧ downloaded t + skipped t + errors t
      = Z.of_nat (length [record 101 1; JObj []; record 102 1]).
Proof.
  apply (every_record_is_counted_once portal_three_states in_order
           pooled_scraper in_order_fair).
  repeat constructor; by eexists.
Defined.

Lemma record_without_ids_is_an_error_witness :
  download_pdf_task portal_three_states (record 0 1) empty_world
  = (Ok (false, false, true), empty_world)
  ∧ download_pdfs_sequential portal_three_states
      (record 0 1 :: [record 101 1]) no_tally empty_world
    = download_pdfs_sequential portal_three_states [record 101 1]
        (count_error no_tally) empty_world.
Proof.
  apply (record_without_ids_is_an_error portal_three_states (record 0 1)
           (JNum 0) (JNum 1)).
  - reflexivity.
  - reflexivity.
  - left. reflexivity.
Defined.

(** ** The pagination driver *)

Section DriverMore.

Variable remote : list event → call → result response.
Variable schedule : ∀ A : Type, list A → list A.
Variable self : BNMPScraper.

Lemma request_page_unreachable uf mun page size pre w e :
  remote (trace w) (PesquisaPecasFilter uf mun page size) = Raise e →
  request_page remote uf mun page size pre w
  = (Ok (page, JNull, Some e), log (search uf mun page size) w).
Proof.
  intros Hr.
  unfold request_page, try_except, bind, pesquisa_pecas_filter, request.
  by rewrite Hr.
Qed.

(** A scope whose first page the portal does not give, the request
    raising or being answered with a status that is neither 200 nor a 400
    to a size above 10, yields no results: the driver returns the empty
    list without raising, after that one request, and leaves no file. *)
Theorem refused_first_page_yields_nothing uf mun w :
  cache_miss self w (filename_prefix_of uf mun) 0 (page_size self) →
  (∃ e, remote (trace w) (PesquisaPecasFilter uf mun 0 (page_size self))
        = Raise e)
  ∨ (∃ r, remote (trace w) (PesquisaPecasFilter uf mun 0 (page_size self))
          = Ok r
          ∧ status_code r ≠ 200
          ∧ ¬ (status_code r = 400 ∧ 10 < page_size self)) →
  download_filter_results remote schedule self uf mun w
  = (Ok [], log (search uf mun 0 (page_size self)) w).
Proof.
  intros Hmiss Hfail. unfold download_filter_results, bind at 1.
  rewrite fetch_uncached by done.
  destruct Hfail as [[e He] | (r & Hr & Hs & Hn)].
  - by rewrite (request_page_unreachable _ _ _ _ _ _ _ He).
  - by rewrite (request_page_refused _ _ _ _ _ _ _ _ Hr Hs Hn).
Qed.

Lemma sequential_extends uf mun size pre pages :
  ∀ acc w rs,
    (download_pages_sequential remote self uf mun size pre pages acc w).1
    = Ok rs →
    acc `prefix_of` rs.
Proof.
  induction pages as [|page rest IH]; intros acc w rs; simpl.
  { by intros [= ->]. }
  destruct (max_results_per_combination self <=? Z.of_nat (length acc)).
  { by intros [= ->]. }
  unfold bind at 1.
  destruct (_download_single_page remote self uf mun page size pre w)
    as [[[[p data] err]|e] w1]; [|done].
  destruct err; [by intros [= ->]|].
  destruct (Py.truthy data); [|apply IH].
  unfold bind, lift. destruct (page_content data) as [items|e]; [|done].
  intros Hrs. apply IH in Hrs. by eapply prefix_app_l.
Qed.

Lemma extend_all_extends pages :
  ∀ acc rs, extend_all pages acc = Ok rs → acc `prefix_of` rs.
Proof.
  induction pages as [|[k page_data] rest IH]; intros acc rs; simpl.
  { by intros [= ->]. }
  destruct (Py.get page_data "content" (JArr [])) as [content|e]; [|done].
  destruct (Py.iter content) as [items|e]; [|done].
  intros Hrs. apply IH in Hrs. by eapply prefix_app_l.
Qed.

(** The results of a scope begin with the items of page 0, in the order
    the portal gave them, in the sequential and in the pooled mode. *)
Theorem results_begin_with_first_page uf mun w d w0 content items rs :
  _download_single_page remote self uf mun 0 (page_size self)
    (filename_prefix_of uf mun) w = (Ok (0, d, None), w0) →
  Py.truthy d = true →
  Py.get d "content" (JArr []) = Ok content →
  Py.iter content = Ok items →
  (download_filter_results remote schedule self uf mun w).1 = Ok rs →
  items `prefix_of` rs.
Proof.
  intros H0 Hd Hc Hitems.
  rewrite (download_filter_results_after_first remote schedule self
             _ _ _ _ _ H0 Hd).
  unfold download_remaining, bind, lift, ret.
  destruct (Py.get d "totalPages" (JNum 1)) as [tpj|e]; [|done].
  destruct (Py.get d "totalElements" (JNum 0)) as [te|e]; [|done].
  rewrite Hc. destruct (Py.len content) as [n|e]; [|done].
  destruct (Py.as_int te) as [reported|e]; [|done].
  assert (∀ total : Z,
            ((if 1 <? total
              then if (1 <? max_workers self)
                      && (1 <? Z.of_nat (length (pages_to_download total)))
                   then download_pages_parallel remote schedule self uf mun n
                          (filename_prefix_of uf mun) (pages_to_download total)
                          items
                   else download_pages_sequential remote self uf mun n
                          (filename_prefix_of uf mun) (pages_to_download total)
                          items
              else λ w1, (Ok items, w1)) w0).1 = Ok rs →
            items `prefix_of` rs) as Hloop.
  { intros total. destruct (1 <? total); [|by intros [= ->]].
    destruct (_ && _); [|apply sequential_extends].
    unfold download_pages_parallel, bind, lift.
    destruct (mapM _ _ w0) as [[fetched|e] w1]; [|done].
    destruct (collect_pages fetched ∅) as [found|e]; [|done].
    apply extend_all_extends. }
  destruct (max_results_per_combination self <=? reported).
  - destruct (Py.floordiv _ n) as [capped|e]; [|done].
    rewrite Hitems. apply Hloop.
  - rewrite Hitems. destruct (Py.as_int tpj) as [total|e]; [|done].
    apply Hloop.
Qed.

End DriverMore.

Lemma refused_first_page_yields_nothing_witness :
  download_filter_results (portal_status 500) in_order default_scraper
    (JNum 1) JNull empty_world
  = (Ok [], log (search (JNum 1) JNull 0 30) empty_world).
Proof.
  apply (refused_first_page_yields_nothing (portal_status 500) in_order
           default_scraper (JNum 1) JNull empty_world).
  - split; reflexivity.
  - right.
    exists {| status_code := 500; json_body := None; content_type := None;
              content := "" |}.
    split; [reflexivity|]. simpl. split; lia.
Defined.

Lemma results_begin_with_first_page_witness :
  replicate 5 (record 1 1)
  `prefix_of` replicate 5 (record 1 1) ++ replicate 5 (record 2 1)
              ++ replicate 5 (record 3 1).
Proof.
  apply (results_begin_with_first_page (portal_pages 5 3 12) in_order
           default_scraper (JNum 1) JNull empty_world
           (page_of (replicate 5 (record 1 1)) 3 12)
           (with_json "uf_1_page_0_size_30.json"
              (page_of (replicate 5 (record 1 1)) 3 12)
              (log (search (JNum 1) JNull 0 30) empty_world))
           (JArr (replicate 5 (record 1 1)))).
  - vm_compute. reflexivity.
  - reflexivity.
  - reflexivity.
  - reflexivity.
  - vm_compute. reflexivity.
Defined.

(** ** Reassembly of the pages fetched by the pool *)

Section Reassembly.

Lemma collect_pages_perm fetched fetched' :
  fetched ≡ₚ fetched' →
  NoDup (page_num <$> fetched) →
  ∀ found found',
    collect_pages fetched found = Ok found' →
    collect_pages fetched' found = Ok found'.
Proof.
  induction 1 as [|x l l' Hperm IH|x y l|l1 l2 l3 H12 IH12 H23 IH23];
    intros Hnd found found'.
  - done.
  - apply NoDup_cons in Hnd as [_ Hnd]. simpl.
    destruct x as [[k d] err]. destruct err; [by apply IH|].
    destruct (Py.truthy d); [|by apply IH].
    destruct (page_content d); [by apply IH|done].
  - apply NoDup_cons in Hnd as [Hxy _].
    destruct x as [[kx dx] ex], y as [[ky dy] ey]. simpl in *.
    assert (ky ≠ kx) as Hne.
    { intros ->. apply Hxy. apply elem_of_cons. by left. }
    destruct ex, ey; try done;
      destruct (Py.truthy dx), (Py.truthy dy); try done;
      destruct (page_content dx), (page_content dy); try done.
    by rewrite (insert_insert_ne _ kx ky).
  - intros Hc. apply IH23; [by rewrite <- H12|]. by apply IH12.
Qed.

(** The order in which the pool completes the pages does not matter:
    with one fetch per page number, any other completion order collects
    the same pages and assembles the same results. *)
Theorem reassembly_ignores_completion_order fetched fetched' acc w rs :
  fetched ≡ₚ fetched' →
  NoDup (page_num <$> fetched) →
  bind (lift (collect_pages fetched ∅))
    (λ page_results, lift (extend_all (sorted_items page_results) acc)) w
  = (Ok rs, w) →
  bind (lift (collect_pages fetched' ∅))
    (λ page_results, lift (extend_all (sorted_items page_results) acc)) w
  = (Ok rs, w).
Proof.
  intros Hperm Hnd. unfold bind, lift.
  destruct (collect_pages fetched ∅) as [found|e] eqn:Hc; [|done].
  by rewrite (collect_pages_perm _ _ Hperm Hnd _ _ Hc).
Qed.




End Reassembly.

Lemma reassembly_ignores_completion_order_witness :
  bind (lift (collect_pages
                [(2, page_of [record 102 1] 3 3, None);
                 (1, page_of [record 101 1] 3 3, None)] ∅))
    (λ page_results, lift (extend_all (sorted_items page_results)
                             [record 100 1])) empty_world
  = (Ok [record 100 1; record 101 1; record 102 1], empty_world).
Proof.
  apply (reassembly_ignores_completion_order
           [(1, page_of [record 101 1] 3 3, None);
            (2, page_of [record 102 1] 3 3, None)]
           [(2, page_of [record 102 1] 3 3, None);
            (1, page_of [record 101 1] 3 3, None)]).
  - apply perm_swap.
  - refine (bool_decide_unpack _ _). vm_compute. exact I.
  - vm_compute. reflexivity.
Defined.


(** ** File names *)

Section FileNames.

Lemma numeric_char_digit n : numeric_char (pretty_N_char n) = true.
Proof. unfold pretty_N_char. by repeat case_match. Qed.

Lemma numeric_pretty_N_go x :
  ∀ s, numeric s = true → numeric (pretty_N_go x s) = true.
Proof.
  induction (N.lt_wf_0 x) as [x _ IH]; intros s Hs.
  assert (x = 0 ∨ 0 < x)%N as [->|Hx] by lia.
  - by rewrite pretty_N_go_0.
  - rewrite pretty_N_go_step by done. apply IH.
    + by apply N.div_lt.
    + simpl. by rewrite numeric_char_digit.
Qed.

Lemma numeric_pretty_Z (z : Z) : numeric (pretty z) = true.
Proof.
  assert (∀ p : positive, numeric (pretty (N.pos p)) = true) as Hpos.
  { intros p. unfold pretty, pretty_N. case_decide; [done|].
    by apply numeric_pretty_N_go. }
  destruct z as [|p|p]; [done|apply Hpos|].
  unfold pretty, pretty_Z. simpl. apply Hpos.
Qed.

(** Two strings of numeric characters followed by the same non-numeric
    character end at the same place. *)
Lemma split_at_mark (c : Ascii.ascii) (s s' t t' : string) :
  numeric_char c = false →
  numeric s = true → numeric s' = true →
  s +:+ String c t = s' +:+ String c t' →
  s = s' ∧ t = t'.
Proof.
  intros Hc. revert s'.
  induction s as [|a s IH]; intros [|a' s']; simpl;
    intros Hs Hs' Heq.
  - by injection Heq as ->.
  - injection Heq as -> _. apply andb_prop in Hs' as [Ha _]. congruence.
  - injection Heq as -> _. apply andb_prop in Hs as [Ha _]. congruence.
  - injection Heq as -> Heq.
    apply andb_prop in Hs as [_ Hs]. apply andb_prop in Hs' as [_ Hs'].
    destruct (IH s' Hs Hs' Heq) as [-> ->]. done.
Qed.

Lemma split_pretty (c : Ascii.ascii) (a a' : Z) (t t' : string) :
  numeric_char c = false →
  pretty a +:+ String c t = pretty a' +:+ String c t' →
  a = a' ∧ t = t'.
Proof.
  intros Hc Heq.
  destruct (split_at_mark c _ _ _ _ Hc (numeric_pretty_Z a)
              (numeric_pretty_Z a') Heq) as [Ha ->].
  split; [|done]. by apply (inj pretty).
Qed.

Lemma pdf_filename_inj_int a b a' b' :
  pdf_filename (JNum a) (JNum b) = pdf_filename (JNum a') (JNum b') →
  a = a' ∧ b = b'.
Proof.
  unfold pdf_filename. simpl Py.str. intros Heq.
  apply (inj (String.append "certidao_")) in Heq.
  apply (split_pretty underscore) in Heq as [-> Heq]; [|done].
  apply (inj (String.append "tipo_")) in Heq.
  apply (split_pretty dot) in Heq as [-> _]; [|done].
  done.
Qed.

(** Two artifacts with integer identifiers share a file name only when
    they are the same artifact: the idempotency key of the artifact
    downloader does not collide. *)
Theorem artifact_file_names_do_not_collide a b a' b' :
  pdf_filename (JNum a) (JNum b) = pdf_filename (JNum a') (JNum b') ↔
  a = a' ∧ b = b'.
Proof.
  split; [apply pdf_filename_inj_int|]. by intros [-> ->].
Qed.

Lemma append_assoc (s1 s2 s3 : string) :
  (s1 +:+ s2) +:+ s3 = s1 +:+ s2 +:+ s3.
Proof.
  induction s1 as [|c s1 IH]; [done|].
  change (String c ((s1 +:+ s2) +:+ s3) = String c (s1 +:+ s2 +:+ s3)).
  by rewrite IH.
Qed.

Lemma page_suffix_inj (page size page' size' : Z) :
  "page_" +:+ pretty page +:+ "_size_" +:+ pretty size +:+ ".json"
  = "page_" +:+ pretty page' +:+ "_size_" +:+ pretty size' +:+ ".json" →
  page = page' ∧ size = size'.
Proof.
  intros Heq. apply (inj (String.append "page_")) in Heq.
  apply (split_pretty underscore) in Heq as [-> Heq]; [|done].
  apply (inj (String.append "size_")) in Heq.
  apply (split_pretty dot) in Heq as [-> _]; [|done].
  done.
Qed.

Lemma page_filename_inj_int uf mun page size uf' mun' page' size' :
  int_scope uf mun → int_scope uf' mun' →
  page_filename (filename_prefix_of uf mun) page size
  = page_filename (filename_prefix_of uf' mun') page' size' →
  uf = uf' ∧ mun = mun' ∧ page = page' ∧ size = size'.
Proof.
  intros [[u ->] Hmun] [[u' ->] Hmun'].
  unfold page_filename, filename_prefix_of.
  destruct Hmun as [-> | [m ->]], Hmun' as [-> | [m' ->]];
    simpl Py.str; rewrite ?append_assoc; intros Heq;
    apply (inj (String.append "uf_")) in Heq;
    apply (split_pretty underscore) in Heq as [-> Heq]; try done.
  - by apply page_suffix_inj in Heq as [-> ->].
  - apply (inj (String.append "municipio_")) in Heq.
    apply (split_pretty underscore) in Heq as [-> Heq]; [|done].
    by apply page_suffix_inj in Heq as [-> ->].
Qed.

(** Two page files of scopes with integer identifiers have the same name
    only when scope, page number and size are the same: the pages of a
    state, of its municipalities and of other states never overwrite each
    other. *)
Theorem page_file_names_do_not_collide uf mun page size uf' mun' page' size' :
  int_scope uf mun → int_scope uf' mun' →
  page_filename (filename_prefix_of uf mun) page size
  = page_filename (filename_prefix_of uf' mun') page' size' →
  uf = uf' ∧ mun = mun' ∧ page = page' ∧ size = size'.
Proof. apply page_filename_inj_int. Qed.

End FileNames.

Lemma page_file_names_do_not_collide_witness :
  JNum 5 = JNum 5 ∧ JNum 12 = JNum 12 ∧ 3 = 3 ∧ 30 = 30.
Proof.
  apply (page_file_names_do_not_collide (JNum 5) (JNum 12) 3 30
           (JNum 5) (JNum 12) 3 30).
  - split; [by exists 5|right; by exists 12].
  - split; [by exists 5|right; by exists 12].
  - reflexivity.
Defined.

(** * Properties of [BNMPAPIClient] *)

Section Client.

(** A URL that starts with [http] is used as it is and any other is put
    behind the portal's base URL; either way the result starts with
    [http], so that resolving twice changes nothing more. *)
Theorem resolved_url_is_absolute (url : string) :
  String.prefix "http" (resolve_url url) = true
  ∧ resolve_url (resolve_url url) = resolve_url url.
Proof.
  assert (String.prefix "http" (resolve_url url) = true) as Habs.
  { unfold resolve_url. by destruct (String.prefix "http" url) eqn:E. }
  split; [done|]. unfold resolve_url at 1. by rewrite Habs.
Qed.

(** Whatever the identifiers, every call of the scraper is sent to the
    API of the portal: its URL is the base URL followed by a path under
    [/bnmpportal/api/]. *)
Theorem calls_go_to_the_portal_api (c : call) :
  ∃ path,
    http_url (wire c) = BNMP_API_BASE_URL +:+ "/bnmpportal/api/" +:+ path.
Proof.
  destruct c as [uf mun page size| |uf|id tipo]; simpl.
  - by exists "pesquisa-pecas/filter".
  - by exists "dominio/estados".
  - by exists ("dominio/por-uf/" +:+ Py.str uf).
  - by exists ("certidaos/relatorio/" +:+ Py.str id +:+ "/" +:+ Py.str tipo).
Qed.

(** The search request carries the page and the size as query parameters
    and the scope in its JSON body: [idEstado], and [idMunicipio] exactly
    when a municipality is given. *)
Theorem search_request_carries_scope uf mun page size :
  ∃ payload,
    http_json (wire (PesquisaPecasFilter uf mun page size))
    = Some (JObj payload)
    ∧ http_verb (wire (PesquisaPecasFilter uf mun page size)) = POST
    ∧ Py.assoc "page"
        (http_params (wire (PesquisaPecasFilter uf mun page size)))
      = Some (JNum page)
    ∧ Py.assoc "size"
        (http_params (wire (PesquisaPecasFilter uf mun page size)))
      = Some (JNum size)
    ∧ Py.assoc "buscaOrgaoRecursivo" payload = Some (JBool false)
    ∧ Py.assoc "orgaoExpeditor" payload = Some (JObj [])
    ∧ Py.assoc "idEstado" payload = (if is_none uf then None else Some uf)
    ∧ Py.assoc "idMunicipio" payload = (if is_none mun then None else Some mun).
Proof.
  eexists. split; [reflexivity|]. repeat split.
  - simpl. by destruct (is_none uf), (is_none mun).
  - simpl. by destruct (is_none uf), (is_none mun).
Qed.

Lemma wire_inj_int c c' :
  int_call c → int_call c' → wire c = wire c' → c = c'.
Proof.
  destruct c as [uf mun page size| |uf|id tipo],
    c' as [uf' mun' page' size'| |uf'|id' tipo']; simpl;
    intros Hc Hc'; try done.
  - destruct Hc as [[u ->] [-> | [m ->]]], Hc' as [[u' ->] [-> | [m' ->]]];
      intros Heq; by simplify_eq/=.
  - destruct Hc as [u ->], Hc' as [u' ->].
    unfold get_municipios_por_uf_request, client_request. simpl Py.str.
    intros [= Heq]. apply (inj (String.append "")) in Heq.
    by apply (inj pretty) in Heq as ->.
  - destruct Hc as [[a ->] [b ->]], Hc' as [[a' ->] [b' ->]].
    unfold download_pdf_request, client_request. simpl Py.str.
    intros [= Heq]. apply (inj (String.append "")) in Heq.
    apply (split_pretty slash) in Heq as [-> Heq]; [|done].
    by apply (inj pretty) in Heq as ->.
Qed.

(** Two calls with integer identifiers that differ never become the same
    HTTP request: the portal is asked for exactly the state, municipality,
    page, size or artifact the scraper means. *)
Theorem distinct_calls_make_distinct_requests c c' :
  int_call c → int_call c' → wire c = wire c' → c = c'.
Proof. apply wire_inj_int. Qed.

End Client.

Lemma distinct_calls_make_distinct_requests_witness :
  DownloadPdf (JNum 101) (JNum 1) = DownloadPdf (JNum 101) (JNum 1).
Proof.
  apply (distinct_calls_make_distinct_requests
           (DownloadPdf (JNum 101) (JNum 1)) (DownloadPdf (JNum 101) (JNum 1))).
  - split; [by exists 101|by exists 1].
  - split; [by exists 101|by exists 1].
  - reflexivity.
Defined.

(** * Properties of the session manager *)

Section Session.

Lemma load_saved cookies filepath fingerprint files :
  load_cookies filepath (save_cookies cookies filepath fingerprint files)
  = Ok (cookies, if Py.truthy fingerprint then fingerprint else JNull).
Proof.
  unfold load_cookies, save_cookies. rewrite lookup_insert_eq.
  by destruct (Py.truthy fingerprint).
Qed.

(** What was saved is what is loaded: the cookies as they were, and the
    fingerprint, except that an empty fingerprint is not written and
    comes back as [None]; and no other file is touched by the save. *)
Theorem saved_cookies_load_back cookies filepath fingerprint files :
  load_cookies filepath (save_cookies cookies filepath fingerprint files)
  = Ok (cookies, if Py.truthy fingerprint then fingerprint else JNull)
  ∧ ∀ other, other ≠ filepath →
      save_cookies cookies filepath fingerprint files !! other
      = files !! other.
Proof.
  split; [apply load_saved|].
  intros other Hne. unfold save_cookies. by rewrite lookup_insert_ne.
Qed.

Lemma set_cookies_appends cookies :
  ∀ jar jar',
    set_cookies cookies jar = Done jar' →
    ∃ added,
      jar' = jar ++ added
      ∧ Forall2 (λ cookie st,
                   getitem cookie "name" = Done (set_name st)
                   ∧ getitem cookie "value" = Done (set_value st)
                   ∧ Py.get cookie "domain" (JStr "") = Ok (set_domain st)
                   ∧ Py.get cookie "path" (JStr "/") = Ok (set_path st))
          cookies added.
Proof.
  induction cookies as [|cookie rest IH]; intros jar jar'; simpl.
  { intros [= ->]. exists []. by rewrite app_nil_r. }
  destruct (getitem cookie "name") as [name|e] eqn:Hname; [|done].
  destruct (getitem cookie "value") as [value|e] eqn:Hvalue; [|done].
  destruct (Py.get cookie "domain" (JStr "")) as [domain|e] eqn:Hd; [|done].
  destruct (Py.get cookie "path" (JStr "/")) as [path|e] eqn:Hp; [|done].
  simpl. intros Hrest. destruct (IH _ _ Hrest) as (added & -> & Hall).
  eexists (_ :: added). rewrite <- app_assoc. split; [done|].
  by constructor.
Qed.

(** A session made from a list of cookies has had every cookie set once,
    in the order of the list, with its name and value, its domain or the
    empty string, and its path or [/]; no header is set. *)
Theorem session_sets_every_cookie items s :
  create_session_from_cookies (JArr items) = Done s →
  Forall2 (λ cookie st,
             getitem cookie "name" = Done (set_name st)
             ∧ getitem cookie "value" = Done (set_value st)
             ∧ Py.get cookie "domain" (JStr "") = Ok (set_domain st)
             ∧ Py.get cookie "path" (JStr "/") = Ok (set_path st))
    items (cookie_sets s)
  ∧ header_sets s = [].
Proof.
  unfold create_session_from_cookies. simpl.
  destruct (fill_cookie_dict items); [|done]. simpl.
  destruct (set_cookies items []) as [jar|e] eqn:Hset; [|done].
  intros [= <-]. simpl. split; [|done].
  by destruct (set_cookies_appends _ _ _ Hset) as (added & -> & Hall).
Qed.

Lemma fill_cookie_dict_good cookies later :
  Forall good_cookie cookies →
  fill_cookie_dict (cookies ++ later) = fill_cookie_dict later.
Proof.
  induction 1 as [|c cookies (kvs & name & value & -> & Hn & Hh & Hv) _ IH];
    [done|].
  simpl. rewrite Hv, Hn. simpl. by rewrite Hh.
Qed.

(** After cookies that are in order, a cookie without a [value] makes
    [create_session_from_cookies] raise [KeyError('value')], and one with
    a value and without a [name] [KeyError('name')]: the value is looked
    up first, and every cookie is checked before any is set. *)
Theorem cookie_without_name_or_value_raises cookies kvs rest :
  Forall good_cookie cookies →
  (Py.assoc "value" kvs = None →
   create_session_from_cookies (JArr (cookies ++ JObj kvs :: rest))
   = Failed (KeyError "value"))
  ∧ (is_Some (Py.assoc "value" kvs) → Py.assoc "name" kvs = None →
     create_session_from_cookies (JArr (cookies ++ JObj kvs :: rest))
     = Failed (KeyError "name")).
Proof.
  intros Hgood. unfold create_session_from_cookies. simpl.
  rewrite (fill_cookie_dict_good _ _ Hgood). simpl. split.
  - by intros ->.
  - by intros [v ->] ->.
Qed.

(** A client built from the file [save_cookies] wrote is the client built
    from the credential itself: the same cookies, and as fingerprint the
    one given to the constructor or else the saved one. *)
Theorem client_from_saved_file cookies filepath saved given files files' :
  cookies ≠ JNull →
  BNMPAPIClient_init JNull (Some filepath) None given
    (save_cookies cookies filepath saved files)
  = BNMPAPIClient_init cookies None None
      (if is_none given then saved else given) files'.
Proof.
  intros Hcookies. unfold BNMPAPIClient_init.
  rewrite load_saved.
  replace (negb (is_none cookies)) with true by (by destruct cookies).
  simpl. destruct (create_session_from_cookies cookies) as [s|e]; [|done].
  simpl. destruct (is_none given); [|done].
  by destruct (Py.truthy saved) eqn:E; simpl; rewrite ?E.
Qed.

(** The credential sources in order: a session that is given is used and
    neither the cookies nor the file are looked at; cookies that are
    given are used and the file is not read; with none of the three the
    constructor raises [ValueError]. *)
Theorem credential_precedence cookies cookies_file s fingerprint files :
  BNMPAPIClient_init cookies cookies_file (Some s) fingerprint files
  = BNMPAPIClient_init JNull None (Some s) fingerprint ∅
  ∧ (cookies ≠ JNull →
     BNMPAPIClient_init cookies cookies_file None fingerprint files
     = BNMPAPIClient_init cookies None None fingerprint ∅)
  ∧ BNMPAPIClient_init JNull None None fingerprint files = Failed ValueError.
Proof.
  split; [done|]. split; [|done].
  intros Hc. unfold BNMPAPIClient_init.
  by replace (negb (is_none cookies)) with true by (by destruct cookies).
Qed.

(** Every client has the default headers set after those of its session,
    and a [fingerprint] header after them exactly when its fingerprint,
    the one given to the constructor if any, is not empty. *)
Theorem client_headers cookies cookies_file session fingerprint files client :
  BNMPAPIClient_init cookies cookies_file session fingerprint files
  = Done client →
  ∃ before fp,
    header_sets client
    = before ++ default_headers
      ++ (if Py.truthy fp then [("fingerprint", fp)] else [])
    ∧ (is_none fingerprint = false → fp = fingerprint).
Proof.
  unfold BNMPAPIClient_init.
  destruct (match session with Some s => _ | None => _ end)
    as [[s fp]|e] eqn:Hsrc; [|done].
  cbn [and_then]. intros [= <-]. exists (header_sets s), fp. split.
  - cbn [header_sets].
    destruct (Py.truthy fp); [by rewrite <- app_assoc|by rewrite app_nil_r].
  - intros Hgiven. destruct session as [s0|].
    + by injection Hsrc as <- <-.
    + destruct (negb (is_none cookies)).
      * destruct (create_session_from_cookies cookies); [|done].
        by injection Hsrc as <- <-.
      * destruct cookies_file as [path|]; [|done].
        destruct (load_cookies path files) as [[c f]|e]; [|done]. simpl in Hsrc.
        destruct (create_session_from_cookies c); [|done].
        injection Hsrc as <- <-. by rewrite Hgiven.
Qed.

End Session.

Lemma session_sets_every_cookie_witness :
  Forall2 (λ cookie st,
             getitem cookie "name" = Done (set_name st)
             ∧ getitem cookie "value" = Done (set_value st)
             ∧ Py.get cookie "domain" (JStr "") = Ok (set_domain st)
             ∧ Py.get cookie "path" (JStr "/") = Ok (set_path st))
    [JObj [("name", JStr "portalbnmp"); ("value", JStr "test_token_value");
           ("domain", JStr ".cnj.jus.br"); ("path", JStr "/")]]
    (cookie_sets sample_session)
  ∧ header_sets sample_session = [].
Proof.
  apply (session_sets_every_cookie
           [JObj [("name", JStr "portalbnmp");
                  ("value", JStr "test_token_value");
                  ("domain", JStr ".cnj.jus.br"); ("path", JStr "/")]]
           sample_session).
  reflexivity.
Defined.

Lemma cookie_without_name_or_value_raises_witness :
  create_session_from_cookies
    (JArr ([JObj [("name", JStr "a"); ("value", JStr "1")]]
           ++ JObj [("name", JStr "b")] :: []))
  = Failed (KeyError "value").
Proof.
  refine (proj1 (cookie_without_name_or_value_raises
                   [JObj [("name", JStr "a"); ("value", JStr "1")]]
                   [("name", JStr "b")] [] _) eq_refl).
  repeat constructor. by eexists _, _, _.
Defined.

Lemma client_from_saved_file_witness :
  BNMPAPIClient_init JNull (Some "cookies.json") None JNull
    (save_cookies sample_cookies "cookies.json" (JStr "test_fingerprint_123") ∅)
  = BNMPAPIClient_init sample_cookies None None
      (if is_none JNull then JStr "test_fingerprint_123" else JNull) ∅.
Proof.
  apply (client_from_saved_file sample_cookies "cookies.json"
           (JStr "test_fingerprint_123") JNull ∅ ∅).
  discriminate.
Defined.

Lemma credential_precedence_witness :
  BNMPAPIClient_init sample_cookies (Some "missing.json") None
    (JStr "test_fingerprint_123") ∅
  = BNMPAPIClient_init sample_cookies None None (JStr "test_fingerprint_123") ∅.
Proof.
  refine (proj1 (proj2 (credential_precedence sample_cookies
                          (Some "missing.json") sample_session
                          (JStr "test_fingerprint_123") ∅)) _).
  discriminate.
Defined.

Lemma client_headers_witness :
  ∃ before fp,
    header_sets (sample_client (JStr "test_fingerprint_123"))
    = before ++ default_headers
      ++ (if Py.truthy fp then [("fingerprint", fp)] else [])
    ∧ (is_none (JStr "test_fingerprint_123") = false →
       fp = JStr "test_fingerprint_123").
Proof.
  apply (client_headers sample_cookies None None (JStr "test_fingerprint_123")
           ∅ (sample_client (JStr "test_fingerprint_123"))).
  reflexivity.
Defined.

(** ** Resuming the crawl from a checkpoint *)

Section Resume.

Variable remote : list event → call → result response.
Variable schedule : ∀ A : Type, list A → list A.
Variable self : BNMPScraper.

(** A municipality the loop does not pass over is searched, its artifacts
    are downloaded, and the loop goes on with every later one. *)
Lemma scrape_municipios_reach start_mun uf municipio later started mid w :
  Py.get municipio "id" JNull = Ok mid →
  started = true ∨ Py.eq_opt_int mid start_mun = true →
  scrape_municipios remote schedule self start_mun uf (municipio :: later)
    started w
  = bind (download_filter_results remote schedule self uf mid)
      (λ results,
         bind (_download_pdfs_for_results remote schedule self results)
           (λ _, scrape_municipios remote schedule self start_mun uf later
                   true)) w.
Proof.
  intros Hid Hreach. simpl. unfold bind at 1, lift at 1. rewrite Hid.
  by destruct Hreach as [-> | ->]; rewrite ?andb_false_r.
Qed.

(** A state whose municipalities are listed enters the loop over them
    with the flag the controller computes for it. *)
Lemma scrape_estado_drill start_uf start_mun skip uf name w rs w1 municipios
    w2 total items :
  state_level_results remote schedule self uf w = (Ok rs, w1) →
  skip && (Z.of_nat (length rs) <? max_results_per_combination self) = false →
  get_municipios remote uf w1 = (Ok municipios, w2) →
  Py.len municipios = Ok total →
  Py.iter municipios = Ok items →
  scrape_estado remote schedule self start_uf start_mun skip uf name w
  = scrape_municipios remote schedule self start_mun uf items
      (bool_decide (start_mun = None) || negb (Py.eq_opt_int uf start_uf))
      (with_json (municipios_file uf)
         (municipios_metadata uf name municipios total) w2).
Proof.
  intros Hrs Hskip Hmun Hlen Hiter.
  unfold scrape_estado, bind. rewrite Hrs, Hskip, Hmun. simpl.
  unfold lift. rewrite Hlen. simpl. by rewrite Hiter.
Qed.

(** A small state under the skip: only its state-level scope is searched
    and only artifacts are downloaded. *)
Lemma scrape_estado_small start_uf start_mun uf name w rs w1 :
  state_level_results remote schedule self uf w = (Ok rs, w1) →
  Z.of_nat (length rs) < max_results_per_combination self →
  ∃ evs,
    trace (scrape_estado remote schedule self start_uf start_mun true
             uf name w).2 = trace w ++ evs
    ∧ Forall (λ e, scope_event uf JNull e ∨ artifact_event e) evs.
Proof.
  intros Hrs Hsmall.
  assert (scrape_estado remote schedule self start_uf start_mun true uf name w
          = bind (_download_pdfs_for_results remote schedule self rs)
              (λ _, ret tt) w1) as ->.
  { unfold scrape_estado, bind at 1. rewrite Hrs. simpl.
    by destruct (Z.ltb_spec (Z.of_nat (length rs))
                   (max_results_per_combination self)); [|lia]. }
  assert (emits (scope_event uf JNull)
            (state_level_results remote schedule self uf)) as H1.
  { apply emits_try_except; [|intros; apply emits_ret].
    apply emits_driver_scope. }
  assert (emits artifact_event
            (bind (_download_pdfs_for_results remote schedule self rs)
               (λ _, ret tt))) as H2.
  { apply emits_bind; [|intros; apply emits_ret]. apply emits_pdfs_artifact. }
  destruct (H1 w) as (evs1 & Ht1 & HP1). rewrite Hrs in Ht1. simpl in Ht1.
  destruct (H2 w1) as (evs2 & Ht2 & HP2).
  exists (evs1 ++ evs2). rewrite Ht2, Ht1, <- app_assoc. split; [done|].
  apply Forall_app. split; (eapply Forall_impl; [eassumption|]); simpl; auto.
Qed.

Lemma bind_assoc {A B C} (m : M A) (f : A → M B) (g : B → M C) w :
  bind (bind m f) g w = bind m (λ a, bind (f a) g) w.
Proof. unfold bind. by destruct (m w) as [[a|e] w1]. Qed.

Lemma bind_first_event {A B} (m : M A) (k : A → M B) w a w1 e evs :
  m w = (Ok a, w1) →
  trace w1 = trace w ++ e :: evs →
  emits (λ _, True) (k a) →
  ∃ evs', trace (bind m k w).2 = trace w ++ e :: evs'.
Proof.
  intros Hm Ht Hk. unfold bind. rewrite Hm.
  destruct (Hk w1) as (evs2 & Ht2 & _). rewrite Ht2, Ht.
  exists (evs ++ evs2). by rewrite <- app_assoc.
Qed.

Lemma trace_grows_remaining uf mun pre d :
  emits (λ _, True) (download_remaining remote schedule self uf mun pre d).
Proof.
  unfold download_remaining, download_pages_parallel.
  repeat first [ by apply emits_sequential | by apply emits_fetch | emits_go ].
Qed.

(** The first thing page 0 of a scope leaves in the trace: the read of
    its stored file, or its request with the configured size. *)
Lemma first_page_first_event uf mun w :
  ∃ r w1 e evs,
    _download_single_page remote self uf mun 0 (page_size self)
      (filename_prefix_of uf mun) w = (Ok r, w1)
    ∧ trace w1 = trace w ++ e :: evs
    ∧ (e = ReadJson (page_filename (filename_prefix_of uf mun) 0
                       (page_size self))
       ∨ e = search uf mun 0 (page_size self)).
Proof.
  destruct (cached_file self w (filename_prefix_of uf mun) 0 (page_size self))
    as [[fn f]|] eqn:Hc.
  - rewrite (fetch_cached _ _ _ _ _ _ _ _ _ _ Hc).
    exists (read_outcome 0 f), (log (ReadJson fn) w), (ReadJson fn), [].
    split; [done|]. split; [done|]. left. f_equal.
    unfold cached_file in Hc.
    destruct (json_dir w !! _); by simplify_eq.
  - apply cached_file_None in Hc. rewrite fetch_uncached by done.
    destruct (request_page_asks remote uf mun 0 (page_size self)
                (filename_prefix_of uf mun) w) as (r & evs & Hr & Ht).
    exists r, (request_page remote uf mun 0 (page_size self)
                 (filename_prefix_of uf mun) w).2,
      (search uf mun 0 (page_size self)), evs.
    split; [done|]. split; [done|]. by right.
Qed.

(** A municipality the loop does not pass over is queried. *)
Lemma municipio_is_queried start_mun uf municipio later started mid w :
  Py.get municipio "id" JNull = Ok mid →
  started = true ∨ Py.eq_opt_int mid start_mun = true →
  ∃ e evs,
    trace (scrape_municipios remote schedule self start_mun uf
             (municipio :: later) started w).2 = trace w ++ e :: evs
    ∧ (e = ReadJson (page_filename (filename_prefix_of uf mid) 0
                       (page_size self))
       ∨ e = search uf mid 0 (page_size self)).
Proof.
  intros Hid Hreach.
  rewrite (scrape_municipios_reach _ _ _ _ _ _ _ Hid Hreach).
  unfold download_filter_results. rewrite bind_assoc.
  destruct (first_page_first_event uf mid w) as (r & w1 & e & evs & Hr & Ht & He).
  destruct (bind_first_event _
              (λ a, bind
                      (let '(_, first_page_data, error) := a in
                       if bool_decide (is_Some error)
                          || negb (Py.truthy first_page_data)
                       then ret []
                       else download_remaining remote schedule self uf mid
                              (filename_prefix_of uf mid) first_page_data)
                      (λ results,
                         bind (_download_pdfs_for_results remote schedule self
                                 results)
                           (λ _, scrape_municipios remote schedule self
                                   start_mun uf later true)))
              w r w1 e evs Hr Ht) as [evs' Hall].
  { apply emits_bind.
    - destruct r as [[? d] err].
      destruct (bool_decide (is_Some err) || negb (Py.truthy d));
        [apply emits_ret|apply trace_grows_remaining].
    - intros results. apply emits_bind.
      + by apply emits_pdfs.
      + intros _. eapply emits_weaken; [|apply emits_municipios_state]. done. }
  exists e, evs'. by split.
Qed.

(** C7.  A crawl given the checkpoint [(start, m)] enters the loop over
    the listed states with the checkpoint pending.
    - The states listed before the first one whose id is [start] are
      passed over without any effect, and that state is the first one
      crawled.
    - In the start state, once its municipalities are listed, the ones
      listed before the first whose id is [m] are passed over without any
      effect; that municipality is the first one searched and its
      artifacts downloaded, then the loop goes on with the ones after it.
      When none has the id [m], no municipality is searched.
    - When the start state is small and the skip is set, its
      municipalities are not listed and none is searched.
    - A state whose id is not [start] is crawled as with no municipality
      checkpoint: once its municipalities are listed the first of them is
      searched and its artifacts downloaded, then the ones after it.
    - A municipality that is not passed over, the one with the id [m]
      or any one after a municipality was processed, is queried: the
      first event it leaves is the read of its stored page 0 or the
      request of its page 0 with the configured size; its artifacts are
      downloaded and every later municipality of the state is processed.
    - Once the start state was reached every later state is crawled. *)
Theorem resume_from_checkpoint (start m : Z) (skip : bool) :
  (∀ w estados w1,
     get_estados remote w = (Ok (JArr estados), w1) →
     scrape_all remote schedule self (Some start) (Some m) skip w
     = scrape_estados remote schedule self (Some start) (Some m) skip estados
         false
         (with_json "metadata/estados.json"
            (JObj [("estados", JArr estados);
                   ("total", JNum (Z.of_nat (length estados)))]) w1))
  ∧ (∀ pre w,
       Forall (before_checkpoint (Some start)) pre →
       scrape_estados remote schedule self (Some start) (Some m) skip pre
         false w = (Ok tt, w)
       ∧ ∀ estado rest uf name,
           Py.get estado "id" JNull = Ok uf →
           Py.eq_opt_int uf (Some start) = true →
           uf_name_of estado uf = Ok name →
           scrape_estados remote schedule self (Some start) (Some m) skip
             (pre ++ estado :: rest) false w
           = bind (scrape_estado remote schedule self (Some start) (Some m)
                     skip uf name)
               (λ _, scrape_estados remote schedule self (Some start)
                       (Some m) skip rest true) w)
  ∧ (∀ uf name w rs w1 municipios w2 total pre,
       Py.eq_opt_int uf (Some start) = true →
       state_level_results remote schedule self uf w = (Ok rs, w1) →
       skip && (Z.of_nat (length rs) <? max_results_per_combination self)
       = false →
       get_municipios remote uf w1 = (Ok municipios, w2) →
       Py.len municipios = Ok total →
       Forall (before_checkpoint (Some m)) pre →
       (Py.iter municipios = Ok pre →
        scrape_estado remote schedule self (Some start) (Some m) skip uf
          name w
        = (Ok tt,
           with_json (municipios_file uf)
             (municipios_metadata uf name municipios total) w2))
       ∧ ∀ municipio later mid,
           Py.iter municipios = Ok (pre ++ municipio :: later) →
           Py.get municipio "id" JNull = Ok mid →
           Py.eq_opt_int mid (Some m) = true →
           scrape_estado remote schedule self (Some start) (Some m) skip uf
             name w
           = bind (download_filter_results remote schedule self uf mid)
               (λ results,
                  bind (_download_pdfs_for_results remote schedule self
                          results)
                    (λ _, scrape_municipios remote schedule self (Some m) uf
                            later true))
               (with_json (municipios_file uf)
                  (municipios_metadata uf name municipios total) w2))
  ∧ (∀ uf name w rs w1,
       skip = true →
       state_level_results remote schedule self uf w = (Ok rs, w1) →
       Z.of_nat (length rs) < max_results_per_combination self →
       ∃ evs,
         trace (scrape_estado remote schedule self (Some start) (Some m) skip
                  uf name w).2 = trace w ++ evs
         ∧ Forall (λ e, scope_event uf JNull e ∨ artifact_event e) evs)
  ∧ (∀ uf name w,
       Py.eq_opt_int uf (Some start) = false →
       scrape_estado remote schedule self (Some start) (Some m) skip uf name w
       = scrape_estado remote schedule self (Some start) None skip uf name w
       ∧ ∀ rs w1 municipios w2 total municipio later mid,
           state_level_results remote schedule self uf w = (Ok rs, w1) →
           skip && (Z.of_nat (length rs) <? max_results_per_combination self)
           = false →
           get_municipios remote uf w1 = (Ok municipios, w2) →
           Py.len municipios = Ok total →
           Py.iter municipios = Ok (municipio :: later) →
           Py.get municipio "id" JNull = Ok mid →
           scrape_estado remote schedule self (Some start) (Some m) skip uf
             name w
           = bind (download_filter_results remote schedule self uf mid)
               (λ results,
                  bind (_download_pdfs_for_results remote schedule self
                          results)
                    (λ _, scrape_municipios remote schedule self (Some m) uf
                            later true))
               (with_json (municipios_file uf)
                  (municipios_metadata uf name municipios total) w2))
  ∧ (∀ uf municipio later mid started w,
       Py.get municipio "id" JNull = Ok mid →
       started = true ∨ Py.eq_opt_int mid (Some m) = true →
       scrape_municipios remote schedule self (Some m) uf
         (municipio :: later) started w
       = bind (download_filter_results remote schedule self uf mid)
           (λ results,
              bind (_download_pdfs_for_results remote schedule self results)
                (λ _, scrape_municipios remote schedule self (Some m) uf
                        later true)) w
       ∧ ∃ e evs,
           trace (scrape_municipios remote schedule self (Some m) uf
                    (municipio :: later) started w).2 = trace w ++ e :: evs
           ∧ (e = ReadJson (page_filename (filename_prefix_of uf mid) 0
                              (page_size self))
              ∨ e = search uf mid 0 (page_size self)))
  ∧ (∀ estado rest uf name w,
       Py.get estado "id" JNull = Ok uf →
       uf_name_of estado uf = Ok name →
       scrape_estados remote schedule self (Some start) (Some m) skip
         (estado :: rest) true w
       = bind (scrape_estado remote schedule self (Some start) (Some m) skip
                 uf name)
           (λ _, scrape_estados remote schedule self (Some start) (Some m)
                   skip rest true) w).
Proof.
  split; [|split; [|split; [|split; [|split; [|split]]]]].
  - intros w estados w1 Hget. unfold scrape_all, bind at 1. by rewrite Hget.
  - intros pre w Hpre. split.
    + rewrite <- (app_nil_r pre). by rewrite scrape_estados_skip.
    + intros estado rest uf name Hid Heq Hname.
      rewrite scrape_estados_skip by done.
      apply scrape_estados_reach; auto.
  - intros uf name w rs w1 municipios w2 total pre
      Heq Hrs Hskip Hmun Hlen Hpre. split.
    + intros Hiter.
      rewrite (scrape_estado_drill _ _ _ _ _ _ _ _ _ _ _ _
                 Hrs Hskip Hmun Hlen Hiter).
      rewrite Heq.
      change (bool_decide (Some m = None) || negb true) with false.
      rewrite <- (app_nil_r pre). by rewrite scrape_municipios_skip.
    + intros municipio later mid Hiter Hid Hm.
      rewrite (scrape_estado_drill _ _ _ _ _ _ _ _ _ _ _ _
                 Hrs Hskip Hmun Hlen Hiter).
      rewrite Heq.
      change (bool_decide (Some m = None) || negb true) with false.
      rewrite scrape_municipios_skip by done.
      apply scrape_municipios_reach; auto.
  - intros uf name w rs w1 -> Hrs Hsmall. by eapply scrape_estado_small.
  - intros uf name w Hne. split; [by apply scrape_estado_later|].
    intros rs w1 municipios w2 total municipio later mid
      Hrs Hskip Hmun Hlen Hiter Hid.
    rewrite (scrape_estado_drill _ _ _ _ _ _ _ _ _ _ _ _
               Hrs Hskip Hmun Hlen Hiter).
    rewrite Hne.
    change (bool_decide (Some m = None) || negb false) with true.
    apply scrape_municipios_reach; auto.
  - intros uf municipio later mid started w Hid Hreach. split.
    + by apply scrape_municipios_reach.
    + by apply municipio_is_queried.
  - intros estado rest uf name w Hid Hname.
    apply scrape_estados_reach; auto.
Qed.

End Resume.

Lemma resume_from_checkpoint_witness :
  scrape_all portal_three_states in_order default_scraper (Some 5) (Some 12)
    false empty_world
  = scrape_estados portal_three_states in_order default_scraper (Some 5)
      (Some 12) false [place 4 "AC"; place 5 "AL"; place 6 "AM"] false
      (with_json "metadata/estados.json"
         (JObj [("estados", JArr [place 4 "AC"; place 5 "AL"; place 6 "AM"]);
                ("total", JNum 3)])
         (log (Net GetEstados) empty_world))
  ∧ (scrape_estados portal_three_states in_order default_scraper
       (Some 5) (Some 12) false [place 4 "AC"] false empty_world
     = (Ok tt, empty_world)
     ∧ scrape_estados portal_three_states in_order default_scraper
         (Some 5) (Some 12) false
         ([place 4 "AC"] ++ place 5 "AL" :: [place 6 "AM"]) false empty_world
       = bind (scrape_estado portal_three_states in_order default_scraper
                 (Some 5) (Some 12) false (JNum 5) (JStr "AL"))
           (λ _, scrape_estados portal_three_states in_order default_scraper
                   (Some 5) (Some 12) false [place 6 "AM"] true) empty_world)
  ∧ scrape_estado portal_three_states in_order default_scraper
      (Some 5) (Some 12) false (JNum 5) (JStr "AL") empty_world
    = bind (download_filter_results portal_three_states in_order
              default_scraper (JNum 5) (JNum 12))
        (λ results,
           bind (_download_pdfs_for_results portal_three_states in_order
                   default_scraper results)
             (λ _, scrape_municipios portal_three_states in_order
                     default_scraper (Some 12) (JNum 5) [place 13 "C"] true))
        (listed_world 5 "AL")
  ∧ scrape_estado portal_three_states in_order default_scraper
      (Some 5) (Some 99) false (JNum 5) (JStr "AL") empty_world
    = (Ok tt, listed_world 5 "AL")
  ∧ (∃ evs,
       trace (scrape_estado portal_three_states in_order default_scraper
                (Some 5) (Some 12) true (JNum 5) (JStr "AL") empty_world).2
       = trace empty_world ++ evs
       ∧ Forall (λ e, scope_event (JNum 5) JNull e ∨ artifact_event e) evs)
  ∧ (scrape_estado portal_three_states in_order default_scraper
       (Some 5) (Some 12) false (JNum 6) (JStr "AM") empty_world
     = scrape_estado portal_three_states in_order default_scraper
         (Some 5) None false (JNum 6) (JStr "AM") empty_world
     ∧ scrape_estado portal_three_states in_order default_scraper
         (Some 5) (Some 12) false (JNum 6) (JStr "AM") empty_world
       = bind (download_filter_results portal_three_states in_order
                 default_scraper (JNum 6) (JNum 11))
           (λ results,
              bind (_download_pdfs_for_results portal_three_states in_order
                      default_scraper results)
                (λ _, scrape_municipios portal_three_states in_order
                        default_scraper (Some 12) (JNum 6)
                        [place 12 "B"; place 13 "C"] true))
           (listed_world 6 "AM"))
  ∧ (scrape_municipios portal_three_states in_order default_scraper
       (Some 12) (JNum 5) [place 12 "B"; place 13 "C"] false
       (listed_world 5 "AL")
     = bind (download_filter_results portal_three_states in_order
               default_scraper (JNum 5) (JNum 12))
         (λ results,
            bind (_download_pdfs_for_results portal_three_states in_order
                    default_scraper results)
              (λ _, scrape_municipios portal_three_states in_order
                      default_scraper (Some 12) (JNum 5) [place 13 "C"] true))
         (listed_world 5 "AL")
     ∧ ∃ e evs,
         trace (scrape_municipios portal_three_states in_order
                  default_scraper (Some 12) (JNum 5)
                  [place 12 "B"; place 13 "C"] false (listed_world 5 "AL")).2
         = trace (listed_world 5 "AL") ++ e :: evs
         ∧ (e = ReadJson (page_filename (filename_prefix_of (JNum 5) (JNum 12))
                            0 (page_size default_scraper))
            ∨ e = search (JNum 5) (JNum 12) 0 (page_size default_scraper)))
  ∧ scrape_estados portal_three_states in_order default_scraper
      (Some 5) (Some 12) false [place 6 "AM"] true empty_world
    = bind (scrape_estado portal_three_states in_order default_scraper
              (Some 5) (Some 12) false (JNum 6) (JStr "AM"))
        (λ _, scrape_estados portal_three_states in_order default_scraper
                (Some 5) (Some 12) false [] true) empty_world.
Proof.
  pose proof (resume_from_checkpoint portal_three_states in_order
                default_scraper 5 12 false)
    as (Hentry & Hstates & Hstart & _ & Hlater & Hreach & Hnext).
  pose proof (resume_from_checkpoint portal_three_states in_order
                default_scraper 5 99 false) as (_ & _ & Hmissing & _).
  pose proof (resume_from_checkpoint portal_three_states in_order
                default_scraper 5 12 true) as (_ & _ & _ & Hsmall & _).
  split; [|split; [|split; [|split; [|split; [|split; [|split]]]]]].
  - apply Hentry. vm_compute. reflexivity.
  - destruct (Hstates [place 4 "AC"] empty_world) as [Hnone Hfirst].
    { repeat constructor. exists (JNum 4). split; reflexivity. }
    split; [exact Hnone|]. apply Hfirst; reflexivity.
  - destruct (Hstart (JNum 5) (JStr "AL") empty_world [record 101 1]
                (after_state_page 5)
                (JArr [place 11 "A"; place 12 "B"; place 13 "C"])
                (log (Net (GetMunicipiosPorUf (JNum 5))) (after_state_page 5))
                3 [place 11 "A"]) as [_ Hfound].
    + reflexivity.
    + vm_compute. reflexivity.
    + reflexivity.
    + vm_compute. reflexivity.
    + reflexivity.
    + repeat constructor. exists (JNum 11). split; reflexivity.
    + apply (Hfound (place 12 "B") [place 13 "C"] (JNum 12)); reflexivity.
  - destruct (Hmissing (JNum 5) (JStr "AL") empty_world [record 101 1]
                (after_state_page 5)
                (JArr [place 11 "A"; place 12 "B"; place 13 "C"])
                (log (Net (GetMunicipiosPorUf (JNum 5))) (after_state_page 5))
                3 [place 11 "A"; place 12 "B"; place 13 "C"]) as [Hnone _].
    + reflexivity.
    + vm_compute. reflexivity.
    + reflexivity.
    + vm_compute. reflexivity.
    + reflexivity.
    + repeat constructor; eexists; split; reflexivity.
    + apply Hnone. reflexivity.
  - apply (Hsmall (JNum 5) (JStr "AL") empty_world [record 101 1]
             (after_state_page 5)).
    + reflexivity.
    + vm_compute. reflexivity.
    + simpl. lia.
  - destruct (Hlater (JNum 6) (JStr "AM") empty_world) as [Hsame Hfirst].
    { reflexivity. }
    split; [exact Hsame|].
    apply (Hfirst [record 101 1] (after_state_page 6)
             (JArr [place 11 "A"; place 12 "B"; place 13 "C"])
             (log (Net (GetMunicipiosPorUf (JNum 6))) (after_state_page 6))
             3 (place 11 "A") [place 12 "B"; place 13 "C"] (JNum 11)).
    + vm_compute. reflexivity.
    + reflexivity.
    + vm_compute. reflexivity.
    + reflexivity.
    + reflexivity.
    + reflexivity.
  - apply Hreach; [reflexivity|]. right. reflexivity.
  - apply Hnext; reflexivity.
Defined.
